(** * The traffic shaping controller (shaper/shaping-controller.py)

    A shallow embedding of the controller: the JSON values it reads, the
    few Python operations it applies to them, the shell it drives and the
    process-wide [current_policy] record, followed by the properties of
    [apply_policy], [clear_shaping] and the HTTP handlers. *)

From Stdlib Require Import String Ascii List Arith ZArith Lia Bool.
From Stdlib Require Import Decimal DecimalNat DecimalString.
Import ListNotations.
Open Scope list_scope.
Open Scope string_scope.

Set Warnings "-register-all".

(** ** JSON values, as [json.load] returns them *)

(** A dict is kept as an association list in insertion order, looked up
    from the front (the keys of a loaded dict are distinct; nothing below
    relies on it).  [JScalar] stands for [None], a boolean or a number:
    the controller only ever formats such a value, so it is carried as
    the text [str()] gives for it. *)
Inductive json : Type :=
| JScalar (text : string)
| JStr (s : string)
| JList (items : list json)
| JObj (members : list (string * json)).

Definition dict := list (string * json).

(** The exceptions the controller can let escape. *)
Inductive exn : Type :=
| KeyError (key : string)
| TypeError
| AttributeError
| OSError (text : string)
| ValueError (text : string).

Fixpoint dict_get (key : string) (d : dict) : option json :=
  match d with
  | [] => None
  | (k, v) :: rest => if String.eqb k key then Some v else dict_get key rest
  end.

Definition dict_has (key : string) (d : dict) : bool :=
  match dict_get key d with Some _ => true | None => false end.

(** [needle in hay] for two [str]: substring test. *)
Fixpoint is_substring (needle hay : string) : bool :=
  if String.prefix needle hay then true
  else match hay with
       | EmptyString => false
       | String _ rest => is_substring needle rest
       end.

(** [value == "text"] for a loaded value against a [str] literal. *)
Definition json_eq_str (value : json) (text : string) : bool :=
  match value with
  | JStr s => String.eqb s text
  | _ => false
  end.

(** [key in container], with a [str] key. *)
Definition py_in (key : string) (container : json) : exn + bool :=
  match container with
  | JObj d => inr (dict_has key d)
  | JList items => inr (existsb (fun item => json_eq_str item key) items)
  | JStr s => inr (is_substring key s)
  | JScalar _ => inl TypeError
  end.

(** [container[key]], with a [str] key. *)
Definition py_getitem (container : json) (key : string) : exn + json :=
  match container with
  | JObj d =>
      match dict_get key d with
      | Some v => inr v
      | None => inl (KeyError key)
      end
  | _ => inl TypeError
  end.

(** [container.get(key, default)]: a method dicts have. *)
Definition py_get (container : json) (key : string) (default : json)
  : exn + json :=
  match container with
  | JObj d =>
      match dict_get key d with
      | Some v => inr v
      | None => inr default
      end
  | _ => inl AttributeError
  end.

(** [str(i)] for a non-negative [int]. *)
Definition str_of_nat (i : nat) : string :=
  NilZero.string_of_uint (Nat.to_uint i).

(** A [str] is held as the bytes of its UTF-8 encoding.  A byte of the
    form 10xxxxxx continues the character begun before it. *)
Definition is_continuation (c : ascii) : bool :=
  match c with
  | Ascii _ _ _ _ _ _ b6 b7 => b7 && negb b6
  end.

(** The characters of [s], [current] being the bytes of the character
    under way. *)
Fixpoint split_chars (current s : string) : list string :=
  match s with
  | EmptyString =>
      match current with
      | EmptyString => []
      | _ => [current]
      end
  | String c rest =>
      if is_continuation c
      then split_chars (current ++ String c EmptyString) rest
      else match current with
           | EmptyString => split_chars (String c EmptyString) rest
           | _ => current :: split_chars (String c EmptyString) rest
           end
  end.

(** The characters of a [str], each as a [str] of its own. *)
Definition chars_of (s : string) : list string :=
  split_chars EmptyString s.

(** What iterating over a value yields ([for x in value], [enumerate],
    [str.join]): the items of a list, the keys of a dict, the characters
    of a string. *)
Definition py_iter (value : json) : exn + list json :=
  match value with
  | JList items => inr items
  | JObj d => inr (map (fun kv => JStr (fst kv)) d)
  | JStr s => inr (map JStr (chars_of s))
  | JScalar _ => inl TypeError
  end.

(** [sep.join(parts)]: every part has to be a [str]. *)
Fixpoint join_strs (sep : string) (parts : list json) : exn + string :=
  match parts with
  | [] => inr EmptyString
  | JStr s :: rest =>
      match rest with
      | [] => inr s
      | _ => match join_strs sep rest with
             | inr tail => inr (s ++ sep ++ tail)
             | inl e => inl e
             end
      end
  | _ :: _ => inl TypeError
  end.

Definition py_join (sep : string) (value : json) : exn + string :=
  match py_iter value with
  | inr parts => join_strs sep parts
  | inl e => inl e
  end.

(** ** The process and its surroundings *)

(** What [subprocess.run] hands back when it returns. *)
Record completed : Type := {
  returncode : Z;
  stdout : string;
  stderr : string
}.

(** The dict [run_command] returns; ["output"] is missing from the one
    built in the [except] branch. *)
Record cmd_result : Type := {
  cmd_success : bool;
  cmd_output : option string;
  cmd_error : string
}.

(** The machine the controller runs on: the shell, the policy file, and
    the text Python prints for a list or a dict inside an f-string. *)
Class Host : Type := {
  world : Type;
  subprocess_run : string -> world -> (string + completed) * world;
  load_policies : world -> exn + json;
  py_repr : json -> string
}.

(** [current_policy]: the dict with keys ["name"], ["status"] and, once a
    policy was applied, ["config"]. *)
Inductive status_t : Type := inactive | active.

Record policy_record : Type := {
  name : string;
  status : status_t;
  config : option json
}.

(** Calls made to the outside, oldest first. *)
Inductive event : Type :=
| Ran (cmd : string) (result : cmd_result)
| OpenedPolicies.

Record state `{Host} : Type := {
  kernel : world;
  current_policy : policy_record;
  history : list event
}.

(** [current_policy = {"name": "none", "status": "inactive"}] *)
Definition initial_policy : policy_record :=
  {| name := "none"; status := inactive; config := None |}.

(** ** Computations of the controller

    A computation threads the state and either returns a value or lets an
    exception escape; the state reached is kept in both cases. *)
Section Controller.
Context `{H : Host}.

Definition M (A : Type) : Type := state -> (exn + A) * state.

Definition ret {A} (a : A) : M A := fun st => (inr a, st).

Definition raise {A} (e : exn) : M A := fun st => (inl e, st).

Definition bind {A B} (c : M A) (k : A -> M B) : M B :=
  fun st =>
    match c st with
    | (inr a, st') => k a st'
    | (inl e, st') => (inl e, st')
    end.

(** A pure Python expression evaluated inside a computation. *)
Definition eval {A} (r : exn + A) : M A := fun st => (r, st).

Definition and_then {A B} (r : exn + A) (k : A -> exn + B) : exn + B :=
  match r with
  | inr a => k a
  | inl e => inl e
  end.

End Controller.

Notation "x <- c ;; k" := (bind c (fun x => k))
  (at level 61, c at next level, right associativity).
Notation "'try' x := r 'in' k" := (and_then r (fun x => k))
  (at level 61, x name, r at next level, right associativity).

(** ** The controller *)

(** What an f-string prints for a loaded value. *)
Definition py_format `{Host} (value : json) : string :=
  match value with
  | JStr s => s
  | JScalar text => text
  | _ => py_repr value
  end.

(** The dict [clear_shaping] returns. *)
Record cleared : Type := {
  cleared_status : string;
  cleared_interface : string
}.

(** The dict [apply_policy] returns; a key that is not set is [None]. *)
Record response : Type := {
  r_success : bool;
  r_policy : option string;
  r_message : option string;
  r_type : option string;
  r_error : option string;
  r_command : option string
}.

(** What lines 47 to 84 of [apply_policy] build before anything is run:
    the single [cmd] of the cake and netem branches, the [commands] list
    of the htb branch, or the error text of the final [else]. *)
Inductive plan : Type :=
| OneCommand (cmd : string)
| CommandList (commands : list string)
| UnknownType (error : string).

Section Functions.
Context `{H : Host}.

(** A parameter declared [interface="eth1"]; [None] is a call that leaves
    it out. *)
Definition interface_arg (interface : option string) : string :=
  match interface with
  | Some i => i
  | None => "eth1"
  end.

(** The two dicts [run_command] can return: from a finished process, or
    from the exception caught around it ([str(e)] is its text). *)
Definition result_dict (outcome : string + completed) : cmd_result :=
  match outcome with
  | inr p => {| cmd_success := Z.eqb (returncode p) 0;
                cmd_output := Some (stdout p);
                cmd_error := stderr p |}
  | inl e => {| cmd_success := false;
                cmd_output := None;
                cmd_error := e |}
  end.

Definition run_command (cmd : string) : M cmd_result :=
  fun st =>
    let (outcome, w) := subprocess_run cmd (kernel st) in
    let result := result_dict outcome in
    (inr result,
     {| kernel := w;
        current_policy := current_policy st;
        history := (history st ++ [Ran cmd result])%list |}).

(** [global current_policy; current_policy = record] *)
Definition set_current_policy (record : policy_record) : M unit :=
  fun st =>
    (inr tt,
     {| kernel := kernel st;
        current_policy := record;
        history := history st |}).

(** [with open('/app/policies.json', 'r') as f: policies = json.load(f)] *)
Definition open_policies : M json :=
  fun st =>
    (load_policies (kernel st),
     {| kernel := kernel st;
        current_policy := current_policy st;
        history := (history st ++ [OpenedPolicies])%list |}).

Definition clear_command (interface : string) : string :=
  "tc qdisc del dev " ++ interface ++ " root 2>/dev/null || true".

Definition clear_shaping (interface : option string) : M cleared :=
  let interface := interface_arg interface in
  _ <- run_command (clear_command interface) ;;
  ret {| cleared_status := "cleared"; cleared_interface := interface |}.

(** The cake branch, lines 48 to 52. *)
Definition cake_command (policy : json) (interface : string) : exn + string :=
  try bandwidth := py_getitem policy "bandwidth" in
  let cmd := "tc qdisc add dev " ++ interface ++ " root cake bandwidth "
             ++ py_format bandwidth in
  try has_rtt := py_in "rtt" policy in
  try cmd := (if has_rtt : bool
              then try rtt := py_getitem policy "rtt" in
                   inr (cmd ++ " rtt " ++ py_format rtt)
              else inr cmd) in
  try has_features := py_in "features" policy in
  if has_features : bool
  then try features := py_getitem policy "features" in
       try flags := py_join " " features in
       inr (cmd ++ " " ++ flags)
  else inr cmd.

(** [if key in policy: cmd += f"{label}{policy[key]}"] *)
Definition append_if_present (policy : json) (key label cmd : string)
  : exn + string :=
  try present := py_in key policy in
  if present : bool
  then try value := py_getitem policy key in
       inr (cmd ++ label ++ py_format value)
  else inr cmd.

(** The netem branch, lines 55 to 63. *)
Definition netem_command (policy : json) (interface : string) : exn + string :=
  let cmd := "tc qdisc add dev " ++ interface ++ " root netem" in
  try cmd := append_if_present policy "delay" " delay " cmd in
  try cmd := append_if_present policy "jitter" " " cmd in
  try cmd := append_if_present policy "loss" " loss " cmd in
  append_if_present policy "rate" " rate " cmd.

(** The body of the loop of lines 70 to 73, from index [i] on. *)
Fixpoint class_commands (interface : string) (i : nat) (classes : list json)
  : exn + list string :=
  match classes with
  | [] => inr []
  | class_cfg :: rest =>
      let classid := "1:" ++ str_of_nat i in
      try rate := py_getitem class_cfg "rate" in
      try ceil := py_get class_cfg "ceil" rate in
      try more := class_commands interface (S i) rest in
      inr (("tc class add dev " ++ interface ++ " parent 1:1 classid "
              ++ classid ++ " htb rate " ++ py_format rate
              ++ " ceil " ++ py_format ceil)
           :: ("tc qdisc add dev " ++ interface ++ " parent " ++ classid
                 ++ " handle " ++ str_of_nat i ++ ": fq_codel")
           :: more)
  end.

(** The htb branch up to the end of its first loop, lines 66 to 73. *)
Definition htb_commands (policy : json) (interface : string)
  : exn + list string :=
  let root := "tc qdisc add dev " ++ interface
              ++ " root handle 1: htb default 30" in
  try total_bandwidth := py_getitem policy "total_bandwidth" in
  let aggregate := "tc class add dev " ++ interface
                   ++ " parent 1: classid 1:1 htb rate "
                   ++ py_format total_bandwidth in
  try classes_value := py_getitem policy "classes" in
  try classes := py_iter classes_value in
  try per_class := class_commands interface 10 classes in
  inr (root :: aggregate :: per_class).

(** The dispatch on [policy['type']], lines 47 to 84. *)
Definition compile (policy : json) (interface : string) : exn + plan :=
  try type := py_getitem policy "type" in
  if json_eq_str type "cake" then
    try cmd := cake_command policy interface in inr (OneCommand cmd)
  else if json_eq_str type "netem" then
    try cmd := netem_command policy interface in inr (OneCommand cmd)
  else if json_eq_str type "htb" then
    try commands := htb_commands policy interface in
    inr (CommandList commands)
  else inr (UnknownType ("Unknown policy type: " ++ py_format type)).

Definition failed (error cmd : string) : response :=
  {| r_success := false; r_policy := None; r_message := None;
     r_type := None; r_error := Some error; r_command := Some cmd |}.

(** The loop of lines 75 to 78: [Some] is the early [return]. *)
Fixpoint run_each (commands : list string) : M (option response) :=
  match commands with
  | [] => ret None
  | cmd :: rest =>
      result <- run_command cmd ;;
      if negb (cmd_success result)
      then ret (Some (failed (cmd_error result) cmd))
      else run_each rest
  end.

Definition active_record (policy_name : string) (descriptor : json)
  : policy_record :=
  {| name := policy_name; status := active; config := Some descriptor |}.

Definition apply_policy (policy_name : string) (interface : option string)
  : M response :=
  let interface := interface_arg interface in
  _ <- clear_shaping (Some interface) ;;
  if String.eqb policy_name "no_shaping" then
    _ <- set_current_policy
           (active_record policy_name (JObj [("type", JStr "none")])) ;;
    ret {| r_success := true; r_policy := Some policy_name;
           r_message := Some "No shaping applied";
           r_type := None; r_error := None; r_command := None |}
  else
    policies <- open_policies ;;
    known <- eval (py_in policy_name policies) ;;
    if negb known then
      ret {| r_success := false; r_policy := None; r_message := None;
             r_type := None;
             r_error := Some ("Policy '" ++ policy_name ++ "' not found");
             r_command := None |}
    else
      policy <- eval (py_getitem policies policy_name) ;;
      compiled <- eval (compile policy interface) ;;
      match compiled with
      | CommandList commands =>
          stopped <- run_each commands ;;
          match stopped with
          | Some failure => ret failure
          | None =>
              _ <- set_current_policy (active_record policy_name policy) ;;
              ret {| r_success := true; r_policy := Some policy_name;
                     r_message := None; r_type := Some "htb";
                     r_error := None; r_command := None |}
          end
      | UnknownType error =>
          ret {| r_success := false; r_policy := None; r_message := None;
                 r_type := None; r_error := Some error;
                 r_command := None |}
      | OneCommand cmd =>
          result <- run_command cmd ;;
          if cmd_success result then
            _ <- set_current_policy (active_record policy_name policy) ;;
            ret {| r_success := true; r_policy := Some policy_name;
                   r_message := None; r_type := None;
                   r_error := None; r_command := Some cmd |}
          else ret (failed (cmd_error result) cmd)
      end.

End Functions.

(** ** The HTTP handlers *)

(** The JSON body of a POST: the two members the handlers read, each
    absent or a string. *)
Record request : Type := {
  req_policy : option string;
  req_interface : option string
}.

Definition empty_request : request :=
  {| req_policy := None; req_interface := None |}.

(** The body of the reply to [/policy/clear]. *)
Record clear_reply : Type := {
  clear_success : bool;
  clear_result : cleared
}.

(** The body of the reply to [/policy/current]. *)
Record current_reply : Type := {
  reply_current_policy : policy_record;
  reply_tc_status : string
}.

Section Handlers.
Context `{H : Host}.

(** [data.get('interface', 'eth1')] *)
Definition get_interface (data : request) : string :=
  match req_interface data with
  | Some i => i
  | None => "eth1"
  end.

(** [request.json] is [None] when the POST carries no JSON body. *)
Definition apply_policy_endpoint (body : option request)
  : M (response * nat) :=
  match body with
  | None => raise AttributeError
  | Some data =>
      let policy_name := req_policy data in
      let interface := get_interface data in
      match policy_name with
      | None | Some EmptyString =>
          ret ({| r_success := false; r_policy := None; r_message := None;
                  r_type := None; r_error := Some "Policy name required";
                  r_command := None |}, 400)
      | Some policy_name =>
          result <- apply_policy policy_name (Some interface) ;;
          ret (result, if r_success result then 200 else 400)
      end
  end.

Definition clear_policy_endpoint (body : option request) : M clear_reply :=
  let data := match body with Some d => d | None => empty_request end in
  let interface := get_interface data in
  result <- clear_shaping (Some interface) ;;
  _ <- set_current_policy initial_policy ;;
  ret {| clear_success := true; clear_result := result |}.

Definition get_current_policy : M current_reply :=
  tc_result <- run_command "tc qdisc show dev eth1" ;;
  fun st =>
    match cmd_output tc_result with
    | Some output =>
        (inr {| reply_current_policy := current_policy st;
                reply_tc_status := output |}, st)
    | None => (inl (KeyError "output"), st)
    end.

End Handlers.

(** ** The state machine of the record *)

Inductive machine : Type :=
| Inactive
| Active (policy_name : string).

Definition machine_state (record : policy_record) : machine :=
  match status record with
  | inactive => Inactive
  | active => Active (name record)
  end.

(** Whether a call of [apply_policy] came back with ["success": True]. *)
Definition succeeded (outcome : exn + response) : bool :=
  match outcome with
  | inr r => r_success r
  | inl _ => false
  end.

(** The commands among the events of a history. *)
Fixpoint commands_of (events : list event) : list string :=
  match events with
  | [] => []
  | Ran cmd _ :: rest => cmd :: commands_of rest
  | OpenedPolicies :: rest => commands_of rest
  end.

(** ** A laboratory host

    One interface, eth1; the world is the command that installed its root
    discipline, if any.  Commands selected by [rejects] exit with status
    2, every other command exits with 0. *)
Definition exit_ok (out : string) : string + completed :=
  inr {| returncode := 0; stdout := out; stderr := EmptyString |}.

Definition exit_invalid : string + completed :=
  inr {| returncode := 2; stdout := EmptyString;
         stderr := "RTNETLINK answers: Invalid argument" |}.

Definition lab_run (rejects : string -> bool) (cmd : string)
  (w : option string) : (string + completed) * option string :=
  if rejects cmd then (exit_invalid, w)
  else if String.eqb cmd "tc qdisc del dev eth1 root 2>/dev/null || true"
  then (exit_ok EmptyString, None)
  else if String.prefix "tc qdisc add dev eth1 root " cmd
  then (exit_ok EmptyString, Some cmd)
  else if String.eqb cmd "tc qdisc show dev eth1"
  then (exit_ok (match w with Some c => c | None => EmptyString end), w)
  else (exit_ok EmptyString, w).

Definition lab_host (catalog : exn + json) (rejects : string -> bool)
  : Host :=
  {| world := option string;
     subprocess_run := lab_run rejects;
     load_policies := fun _ => catalog;
     py_repr := fun _ => EmptyString |}.

Definition slow_link_descriptor : dict :=
  [("type", JStr "netem"); ("delay", JStr "100ms"); ("loss", JStr "1%")].

Definition tiers_descriptor : dict :=
  [("type", JStr "htb");
   ("total_bandwidth", JStr "100mbit");
   ("classes",
    JList [ JObj [("rate", JStr "50mbit"); ("ceil", JStr "100mbit")];
            JObj [("rate", JStr "bogus")];
            JObj [("rate", JStr "10mbit")] ])].

(** The policy file of the laboratory.  "off" has the type the
    controller itself records for "no_shaping". *)
Definition lab_catalog : json :=
  JObj [ ("no_shaping", JObj [("type", JStr "none")]);
         ("slow_link", JObj slow_link_descriptor);
         ("home", JObj [("type", JStr "cake");
                        ("bandwidth", JStr "50mbit");
                        ("rtt", JStr "20ms");
                        ("features", JList [JStr "nat"; JStr "wash"])]);
         ("tiers", JObj tiers_descriptor);
         ("off", JObj [("type", JStr "none")]) ].

Definition never (cmd : string) : bool := false.

(** The kernel refuses the class whose rate is the word "bogus". *)
Definition reject_bogus (cmd : string) : bool :=
  is_substring "rate bogus" cmd.

Definition lab_with (rejects : string -> bool) : Host :=
  lab_host (inr lab_catalog) rejects.

Definition lab : Host := lab_with never.

Definition faulty_lab : Host := lab_with reject_bogus.

(** The kernel refuses every netem discipline. *)
Definition reject_netem (cmd : string) : bool :=
  is_substring " root netem" cmd.

(** A host on which no process ever finishes in time: [subprocess.run]
    raises TimeoutExpired, whose text is what [run_command] keeps. *)
Definition stalled_lab : Host :=
  {| world := option string;
     subprocess_run := fun cmd w => (inl "timed out after 10 seconds", w);
     load_policies := fun _ => inr lab_catalog;
     py_repr := fun _ => EmptyString |}.

(** A host whose policy file cannot be opened. *)
Definition bare_lab : Host :=
  lab_host (inl (OSError "No such file or directory: '/app/policies.json'"))
           never.

Definition lab_state (h : Host) (w : @world h) (record : policy_record)
  : @state h :=
  {| kernel := w; current_policy := record; history := [] |}.

Definition netem_line : string :=
  "tc qdisc add dev eth1 root netem delay 100ms loss 1%".

Definition bogus_line : string :=
  "tc class add dev eth1 parent 1:1 classid 1:11 htb rate bogus ceil bogus".

(** "slow_link" is applied and recorded. *)
Definition slow_link_active (rejects : string -> bool)
  : @state (lab_with rejects) :=
  lab_state (lab_with rejects) (Some netem_line)
            (active_record "slow_link" (JObj slow_link_descriptor)).


(** The events a computation added, given the states before and after. *)
Definition new_events `{Host} (before after : state) : list event :=
  skipn (length (history before)) (history after).

(** How the loop of [run_each] goes over [commands]: the events it adds
    and what it returns. *)
Inductive loop_run : list string -> list event -> option response -> Prop :=
| loop_done : loop_run [] [] None
| loop_stop cmd rest result :
    cmd_success result = false ->
    loop_run (cmd :: rest) [Ran cmd result]
             (Some (failed (cmd_error result) cmd))
| loop_next cmd rest result events stopped :
    cmd_success result = true ->
    loop_run rest events stopped ->
    loop_run (cmd :: rest) (Ran cmd result :: events) stopped.

(** ** The exits of [apply_policy] *)

Section Exits.
Context `{H : Host}.

(** The state a command leaves, and what it returned. *)
Definition ran (cmd : string) (st : state) : state :=
  snd (run_command cmd st).

Definition result_at (cmd : string) (st : state) : cmd_result :=
  result_dict (fst (subprocess_run cmd (kernel st))).

Definition opened (st : state) : state := snd (open_policies st).

Definition recorded (record : policy_record) (st : state) : state :=
  snd (set_current_policy record st).

(** Lines 38 to 84 up to the first command: the file is read in world [w],
    the name looked up and the descriptor compiled.  [inr None] is the
    name missing from the file. *)
Definition prepare (policy_name interface : string) (w : world)
  : exn + option (json * plan) :=
  try policies := load_policies w in
  try known := py_in policy_name policies in
  if negb known then inr None
  else
    try policy := py_getitem policies policy_name in
    try compiled := compile policy interface in
    inr (Some (policy, compiled)).

Definition not_found (policy_name : string) : response :=
  {| r_success := false; r_policy := None; r_message := None;
     r_type := None;
     r_error := Some ("Policy '" ++ policy_name ++ "' not found");
     r_command := None |}.

Definition unknown_type (error : string) : response :=
  {| r_success := false; r_policy := None; r_message := None;
     r_type := None; r_error := Some error; r_command := None |}.

Definition applied (policy_name : string) (type command : option string)
  (message : option string) : response :=
  {| r_success := true; r_policy := Some policy_name;
     r_message := message; r_type := type;
     r_error := None; r_command := command |}.

(** One constructor per way out of [apply_policy policy_name interface]
    started in [st]: what comes back and the state left. *)
Inductive apply_exit (policy_name interface : string) (st : state)
  : exn + response -> state -> Prop :=
| exit_no_shaping :
    policy_name = "no_shaping" ->
    apply_exit policy_name interface st
      (inr (applied policy_name None None (Some "No shaping applied")))
      (recorded (active_record policy_name (JObj [("type", JStr "none")]))
                (ran (clear_command interface) st))
| exit_raised e :
    policy_name <> "no_shaping" ->
    prepare policy_name interface
            (kernel (ran (clear_command interface) st)) = inl e ->
    apply_exit policy_name interface st
      (inl e) (opened (ran (clear_command interface) st))
| exit_not_found :
    policy_name <> "no_shaping" ->
    prepare policy_name interface
            (kernel (ran (clear_command interface) st)) = inr None ->
    apply_exit policy_name interface st
      (inr (not_found policy_name))
      (opened (ran (clear_command interface) st))
| exit_unknown_type policy error :
    policy_name <> "no_shaping" ->
    prepare policy_name interface
            (kernel (ran (clear_command interface) st))
    = inr (Some (policy, UnknownType error)) ->
    apply_exit policy_name interface st
      (inr (unknown_type error))
      (opened (ran (clear_command interface) st))
| exit_command_failed policy cmd :
    policy_name <> "no_shaping" ->
    prepare policy_name interface
            (kernel (ran (clear_command interface) st))
    = inr (Some (policy, OneCommand cmd)) ->
    cmd_success
      (result_at cmd (opened (ran (clear_command interface) st))) = false ->
    apply_exit policy_name interface st
      (inr (failed
              (cmd_error
                 (result_at cmd (opened (ran (clear_command interface) st))))
              cmd))
      (ran cmd (opened (ran (clear_command interface) st)))
| exit_command_applied policy cmd :
    policy_name <> "no_shaping" ->
    prepare policy_name interface
            (kernel (ran (clear_command interface) st))
    = inr (Some (policy, OneCommand cmd)) ->
    cmd_success
      (result_at cmd (opened (ran (clear_command interface) st))) = true ->
    apply_exit policy_name interface st
      (inr (applied policy_name None (Some cmd) None))
      (recorded (active_record policy_name policy)
                (ran cmd (opened (ran (clear_command interface) st))))
| exit_list_failed policy commands failure st' :
    policy_name <> "no_shaping" ->
    prepare policy_name interface
            (kernel (ran (clear_command interface) st))
    = inr (Some (policy, CommandList commands)) ->
    run_each commands (opened (ran (clear_command interface) st))
    = (inr (Some failure), st') ->
    apply_exit policy_name interface st (inr failure) st'
| exit_list_applied policy commands st' :
    policy_name <> "no_shaping" ->
    prepare policy_name interface
            (kernel (ran (clear_command interface) st))
    = inr (Some (policy, CommandList commands)) ->
    run_each commands (opened (ran (clear_command interface) st))
    = (inr None, st') ->
    apply_exit policy_name interface st
      (inr (applied policy_name (Some "htb") None None))
      (recorded (active_record policy_name policy) st').

End Exits.

(** ** Operations, in the words of the specification

    The specification describes what is compiled as typed operations.
    They are defined here from its text and rendered to the command
    lines of the controller, to be compared with what [compile] builds. *)

Inductive action : Type :=
| set_root_discipline
| add_class
| add_child_discipline.

Inductive operation : Type :=
| SetRootNetem (params : list (string * json))
| SetRootHtb
| AddAggregateClass (rate : json)
| AddClass (id : nat) (rate ceil : json)
| AddChildDiscipline (id : nat).

Definition action_of (op : operation) : action :=
  match op with
  | SetRootNetem _ | SetRootHtb => set_root_discipline
  | AddAggregateClass _ | AddClass _ _ _ => add_class
  | AddChildDiscipline _ => add_child_discipline
  end.

(** The identifiers of the per-class [add-class] operations. *)
Fixpoint class_ids (ops : list operation) : list nat :=
  match ops with
  | [] => []
  | AddClass id _ _ :: rest => id :: class_ids rest
  | _ :: rest => class_ids rest
  end.

(** The identifiers the leaf disciplines are attached to. *)
Fixpoint child_ids (ops : list operation) : list nat :=
  match ops with
  | [] => []
  | AddChildDiscipline id :: rest => id :: child_ids rest
  | _ :: rest => child_ids rest
  end.

(** The four attributes of a network-emulation descriptor, in the order
    of the specification. *)
Definition netem_fields : list string := ["delay"; "jitter"; "loss"; "rate"].

Definition netem_params (d : dict) : list (string * json) :=
  flat_map (fun field =>
              match dict_get field d with
              | Some value => [(field, value)]
              | None => []
              end)
           netem_fields.

(** A Class: its rate and its ceiling, the rate when no ceiling is given. *)
Definition class_view (class_cfg : json) : option (json * json) :=
  match class_cfg with
  | JObj d =>
      match dict_get "rate" d with
      | Some rate =>
          Some (rate, match dict_get "ceil" d with
                      | Some ceil => ceil
                      | None => rate
                      end)
      | None => None
      end
  | _ => None
  end.

Fixpoint classes_of (items : list json) : option (list (json * json)) :=
  match items with
  | [] => Some []
  | class_cfg :: rest =>
      match class_view class_cfg, classes_of rest with
      | Some c, Some cs => Some (c :: cs)
      | _, _ => None
      end
  end.

(** The two operations of one Class, given its identifier. *)
Definition class_operations (numbered : nat * (json * json))
  : list operation :=
  let (id, class) := numbered in
  [AddClass id (fst class) (snd class); AddChildDiscipline id].

(** The operations of a hierarchical-bandwidth descriptor: the root, the
    aggregate class, then two operations per Class, numbered from 10. *)
Definition htb_operations (total : json) (classes : list (json * json))
  : list operation :=
  SetRootHtb
  :: AddAggregateClass total
  :: flat_map class_operations (combine (seq 10 (length classes)) classes).

(** How tc spells an attribute of netem: jitter has no keyword of its
    own, it follows the delay. *)
Definition netem_keyword (field : string) : string :=
  if String.eqb field "jitter" then " " else " " ++ field ++ " ".

Definition render `{Host} (interface : string) (op : operation) : string :=
  match op with
  | SetRootNetem params =>
      fold_left (fun cmd (param : string * json) =>
                   cmd ++ netem_keyword (fst param) ++ py_format (snd param))
                params
                ("tc qdisc add dev " ++ interface ++ " root netem")
  | SetRootHtb =>
      "tc qdisc add dev " ++ interface ++ " root handle 1: htb default 30"
  | AddAggregateClass rate =>
      "tc class add dev " ++ interface ++ " parent 1: classid 1:1 htb rate "
      ++ py_format rate
  | AddClass id rate ceil =>
      "tc class add dev " ++ interface ++ " parent 1:1 classid 1:"
      ++ str_of_nat id ++ " htb rate " ++ py_format rate
      ++ " ceil " ++ py_format ceil
  | AddChildDiscipline id =>
      "tc qdisc add dev " ++ interface ++ " parent 1:" ++ str_of_nat id
      ++ " handle " ++ str_of_nat id ++ ": fq_codel"
  end.

(** The kinds of the specification, by the names the policy file uses. *)
Definition spec_kinds : list string := ["none"; "cake"; "netem"; "htb"].

(** The commands a plan asks to run, in order. *)
Definition plan_commands (compiled : plan) : list string :=
  match compiled with
  | OneCommand cmd => [cmd]
  | CommandList commands => commands
  | UnknownType _ => []
  end.

(** The types [compile] has a branch for. *)
Definition compiled_kinds : list string := ["cake"; "netem"; "htb"].

(** ** The other handlers and the process *)

(** The body of the reply to [/health]. *)
Record health_reply : Type := {
  health_status : string;
  health_current_policy : policy_record
}.

(** The body of the reply to [/policies]. *)
Record policies_reply : Type := {
  reply_policies : list string;
  reply_details : json
}.

(** The body of the reply to [/stats]. *)
Record stats_reply : Type := {
  stats_interface : string;
  stats_text : string
}.

(** [policies.keys()]: a method only dicts have. *)
Definition py_keys (value : json) : exn + list string :=
  match value with
  | JObj d => inr (map fst d)
  | _ => inl AttributeError
  end.

Section Process.
Context `{H : Host}.

Definition health : M health_reply :=
  fun st =>
    (inr {| health_status := "healthy";
            health_current_policy := current_policy st |}, st).

Definition list_policies : M policies_reply :=
  policies <- open_policies ;;
  keys <- eval (py_keys policies) ;;
  ret {| reply_policies := keys; reply_details := policies |}.

(** [request.args.get('interface', 'eth1')]: a query parameter is a
    string when it is there. *)
Definition get_stats (interface : option string) : M stats_reply :=
  let interface := match interface with Some i => i | None => "eth1" end in
  tc_stats <- run_command ("tc -s qdisc show dev " ++ interface) ;;
  match cmd_output tc_stats with
  | Some output =>
      ret {| stats_interface := interface; stats_text := output |}
  | None => raise (KeyError "output")
  end.

(** The four commands of the [__main__] block, before the server runs. *)
Definition bootstrap : M unit :=
  _ <- run_command "sysctl -w net.ipv4.ip_forward=1" ;;
  _ <- run_command ("iptables -t nat -A POSTROUTING -o eth1 -j MASQUERADE"
                    ++ " 2>/dev/null || true") ;;
  _ <- run_command ("iptables -A FORWARD -i eth0 -o eth1 -j ACCEPT"
                    ++ " 2>/dev/null || true") ;;
  _ <- run_command ("iptables -A FORWARD -i eth1 -o eth0 -m state"
                    ++ " --state RELATED,ESTABLISHED -j ACCEPT"
                    ++ " 2>/dev/null || true") ;;
  ret tt.

(** The process as it starts serving in world [w]: the module-level
    [current_policy], then the bootstrap. *)
Definition process_start (w : world) : state :=
  snd (bootstrap {| kernel := w;
                    current_policy := initial_policy;
                    history := [] |}).

End Process.

(** A request, by the route it is dispatched to. *)
Inductive call : Type :=
| GetHealth
| GetPolicies
| PostApply (body : option request)
| PostClear (body : option request)
| GetCurrent
| GetStats (interface : option string).

Section Server.
Context `{H : Host}.

(** The state a request leaves once its handler has returned or let an
    exception escape (which the framework answers with status 500). *)
Definition handle (c : call) (st : state) : state :=
  match c with
  | GetHealth => snd (health st)
  | GetPolicies => snd (list_policies st)
  | PostApply body => snd (apply_policy_endpoint body st)
  | PostClear body => snd (clear_policy_endpoint body st)
  | GetCurrent => snd (get_current_policy st)
  | GetStats interface => snd (get_stats interface st)
  end.

(** Requests handled one after the other. *)
Definition serve (calls : list call) (st : state) : state :=
  fold_left (fun st c => handle c st) calls st.

End Server.

(** What the record can be: the initial one, or an active one whose
    config is the descriptor of "no_shaping" or a dict of a type that
    compiles. *)
Definition record_ok (record : policy_record) : Prop :=
  match status record with
  | inactive => record = initial_policy
  | active =>
      exists descriptor,
        config record = Some descriptor
        /\ ((name record = "no_shaping"
             /\ descriptor = JObj [("type", JStr "none")])
            \/ exists kind,
                In kind compiled_kinds
                /\ py_getitem descriptor "type" = inr (JStr kind))
  end.

(** A command line of tc that acts on [interface]. *)
Definition targets (interface cmd : string) : bool :=
  String.prefix ("tc qdisc del dev " ++ interface ++ " ") cmd
  || String.prefix ("tc qdisc add dev " ++ interface ++ " ") cmd
  || String.prefix ("tc class add dev " ++ interface ++ " ") cmd.


Definition home_descriptor : dict :=
  [("type", JStr "cake"); ("bandwidth", JStr "50mbit");
   ("rtt", JStr "20ms"); ("features", JList [JStr "nat"; JStr "wash"])].

(** * The test runner (test-automation/test_runner.py)

    The class [TrafficShapingTester]: it drives the controller over HTTP
    and measures each policy with iperf3.  What it prints is left out,
    and so is the time it sleeps. *)

Module TestRunner.

(** The exceptions that matter to the runner: those of Python above,
    OverflowError, the two it catches by class, what [requests] raises,
    and its own [Exception]. *)
Inductive problem : Type :=
| Python (e : exn)
| OverflowError
| TimeoutExpired
| JSONDecodeError (text : string)
| RequestException (text : string)
| PlainException (text : string).

(** Why arithmetic on a scalar, or formatting it as a float, fails: it
    is [None], or an [int] too large for a float. *)
Inductive number_error : Type :=
| NotANumber
| TooLarge.

Definition number_problem (e : number_error) : problem :=
  match e with
  | NotANumber => Python TypeError
  | TooLarge => OverflowError
  end.

(** What the runner reads of a [requests] response. *)
Record http_response : Type := {
  status_code : nat;
  response_json : problem + json
}.

(** One entry of [self.results]. *)
Record measurement : Type := {
  test_name : json;
  timestamp : string;
  bandwidth_mbps : json;
  bytes_transferred : json;
  retransmits : json;
  jitter_ms : json;
  lost_packets : json;
  lost_percent : json;
  duration : nat
}.

(** Calls made to the outside, oldest first. *)
Inductive contact : Type :=
| Got (url : string)
| Posted (url : string) (body : option json) (status : nat)
| PostFailed (url : string) (body : option json)
| Measured (cmd : list string) (timeout : nat).

(** The surroundings of the runner: the network, the docker host, the
    clock, the JSON parser, and the arithmetic and formatting of Python
    numbers, which are carried here as the text [str()] gives for them. *)
Class Bench : Type := {
  outside : Type;
  requests_get : string -> outside -> (problem + http_response) * outside;
  requests_post :
    string -> option json -> outside -> (problem + http_response) * outside;
  subprocess_run_list :
    list string -> nat -> outside -> (problem + completed) * outside;
  json_loads : string -> option json;
  now_isoformat : outside -> string;
  scalar_div_million : string -> number_error + string;
  scalar_format_2f : string -> number_error + string
}.

(** The instance: its attributes, the outside, and the contacts so far. *)
Record tester `{Bench} : Type := {
  shaper_api : string;
  iperf_duration : nat;
  results : list measurement;
  bench : outside;
  contacts : list contact
}.

(** [container[key]], an exception being a problem. *)
Definition lookup (container : json) (key : string) : problem + json :=
  match py_getitem container key with
  | inr value => inr value
  | inl e => inl (Python e)
  end.

(** [container.get(key, 0)] *)
Definition lookup_or_zero (container : json) (key : string)
  : problem + json :=
  match py_get container key (JScalar "0") with
  | inr value => inr value
  | inl e => inl (Python e)
  end.

(** [value / 1_000_000] *)
Definition div_million `{Bench} (value : json) : problem + json :=
  match value with
  | JScalar text =>
      match scalar_div_million text with
      | inr quotient => inr (JScalar quotient)
      | inl e => inl (number_problem e)
      end
  | _ => inl (Python TypeError)
  end.

(** [f"{value:.2f}"] *)
Definition format_2f `{Bench} (value : json) : problem + string :=
  match value with
  | JScalar text =>
      match scalar_format_2f text with
      | inr shown => inr shown
      | inl e => inl (number_problem e)
      end
  | JStr _ =>
      inl (Python (ValueError
                     "Unknown format code 'f' for object of type 'str'"))
  | _ => inl (Python TypeError)
  end.

Definition and_also {A C} (r : problem + A) (k : A -> problem + C)
  : problem + C :=
  match r with
  | inr a => k a
  | inl e => inl e
  end.

Section Runner.
Context `{B : Bench}.

Definition T (A : Type) : Type := tester -> (problem + A) * tester.

Definition ret {A} (a : A) : T A := fun t => (inr a, t).

Definition raise {A} (e : problem) : T A := fun t => (inl e, t).

Definition bind {A C} (c : T A) (k : A -> T C) : T C :=
  fun t =>
    match c t with
    | (inr a, t') => k a t'
    | (inl e, t') => (inl e, t')
    end.

(** The outside has moved on and a contact was made. *)
Definition moved (o : outside) (seen : contact) (t : tester) : tester :=
  {| shaper_api := shaper_api t;
     iperf_duration := iperf_duration t;
     results := results t;
     bench := o;
     contacts := (contacts t ++ [seen])%list |}.

(** [requests.get(url)] *)
Definition http_get (url : string) : T http_response :=
  fun t =>
    let (r, o) := requests_get url (bench t) in
    (r, moved o (Got url) t).

(** [requests.post(url, json=body)] *)
Definition http_post (url : string) (body : option json)
  : T http_response :=
  fun t =>
    let (r, o) := requests_post url body (bench t) in
    (r, moved o (match r with
                 | inr response => Posted url body (status_code response)
                 | inl _ => PostFailed url body
                 end) t).

Definition get_policies : T json :=
  fun t =>
    bind (http_get (shaper_api t ++ "/policies"))
         (fun response =>
            if Nat.eqb (status_code response) 200 then
              fun t' =>
                (and_also (response_json response)
                          (fun body => lookup body "policies"), t')
            else raise (PlainException "Failed to retrieve policies"))
         t.

Definition apply_policy (policy_name : json) : T bool :=
  fun t =>
    bind (http_post (shaper_api t ++ "/policy/apply")
                    (Some (JObj [("policy", policy_name)])))
         (fun response => ret (Nat.eqb (status_code response) 200))
         t.

Definition clear_policy : T unit :=
  fun t =>
    bind (http_post (shaper_api t ++ "/policy/clear") None)
         (fun _ => ret tt)
         t.

(** The dict of lines 78 to 88 and the two lines printed from it, as a
    pure expression once the clock has been read. *)
Definition build_result (now : string) (iperf : nat)
  (data test : json) : problem + measurement :=
  and_also (lookup data "end") (fun end_data =>
  and_also (lookup end_data "sum_sent") (fun sum_sent =>
  and_also (lookup end_data "sum_received") (fun sum_received =>
  and_also (lookup sum_received "bits_per_second") (fun bits =>
  and_also (div_million bits) (fun bandwidth =>
  and_also (lookup sum_sent "bytes") (fun bytes =>
  and_also (lookup_or_zero sum_sent "retransmits") (fun retrans =>
  and_also (lookup_or_zero sum_received "jitter_ms") (fun jitter =>
  and_also (lookup_or_zero sum_received "lost_packets") (fun lost =>
  and_also (lookup_or_zero sum_received "lost_percent") (fun percent =>
  and_also (format_2f bandwidth) (fun _ =>
  and_also (format_2f percent) (fun _ =>
  inr {| test_name := test;
         timestamp := now;
         bandwidth_mbps := bandwidth;
         bytes_transferred := bytes;
         retransmits := retrans;
         jitter_ms := jitter;
         lost_packets := lost;
         lost_percent := percent;
         duration := iperf |})))))))))))).

(** [try: ... except KeyError: return None] *)
Definition parse_iperf_results (data test : json)
  : T (option measurement) :=
  fun t =>
    match build_result (now_isoformat (bench t)) (iperf_duration t)
                       data test with
    | inr result => (inr (Some result), t)
    | inl (Python (KeyError _)) => (inr None, t)
    | inl e => (inl e, t)
    end.

Definition iperf_command (seconds : nat) : list string :=
  ["docker"; "exec"; "iperf_client"; "iperf3"; "-c"; "172.21.0.3";
   "-t"; str_of_nat seconds; "-J"].

(** The two [except] clauses of [run_iperf_test]. *)
Definition caught (e : problem) : bool :=
  match e with
  | TimeoutExpired | JSONDecodeError _ => true
  | _ => false
  end.

Definition run_iperf_test (test : json) : T (option measurement) :=
  fun t =>
    let cmd := iperf_command (iperf_duration t) in
    let timeout := iperf_duration t + 10 in
    let (r, o) := subprocess_run_list cmd timeout (bench t) in
    let t' := moved o (Measured cmd timeout) t in
    match r with
    | inr result =>
        if Z.eqb (returncode result) 0 then
          match json_loads (stdout result) with
          | Some data =>
              match parse_iperf_results data test t' with
              | (inl e, t'') =>
                  if caught e then (inr None, t'') else (inl e, t'')
              | done => done
              end
          | None => (inr None, t')
          end
        else (inr None, t')
    | inl e => if caught e then (inr None, t') else (inl e, t')
    end.

(** [self.results.append(result)] *)
Definition append_result (result : measurement) : T unit :=
  fun t =>
    (inr tt,
     {| shaper_api := shaper_api t;
        iperf_duration := iperf_duration t;
        results := (results t ++ [result])%list;
        bench := bench t;
        contacts := contacts t |}).

(** The loop of [run_test_suite], lines 108 to 130. *)
Fixpoint test_each (policies : list json) : T unit :=
  match policies with
  | [] => ret tt
  | policy :: rest =>
      bind (apply_policy policy)
           (fun applied =>
              if negb applied then test_each rest
              else
                bind (run_iperf_test policy)
                     (fun result =>
                        bind (match result with
                              | Some r => append_result r
                              | None => ret tt
                              end)
                             (fun _ =>
                                bind clear_policy
                                     (fun _ => test_each rest))))
  end.

(** [policies=None] is the call that leaves the argument out. *)
Definition run_test_suite (policies : option json) : T unit :=
  bind (match policies with
        | None => get_policies
        | Some given => ret given
        end)
       (fun policies =>
          fun t =>
            match py_iter policies with
            | inr items => test_each items t
            | inl e => (inl (Python e), t)
            end).

(** The policies a call of [run_test_suite] goes over, when it gets as
    far as the loop: the items of the argument, or of what
    [get_policies] returns. *)
Definition tested_policies (policies : option json) (t : tester)
  : option (list json) :=
  match (match policies with
         | Some given => inr given
         | None => fst (get_policies t)
         end) with
  | inr listed =>
      match py_iter listed with
      | inr items => Some items
      | inl _ => None
      end
  | inl _ => None
  end.

End Runner.

(** The contacts of a completed loop, policy by policy: the apply, and
    after a status 200 the measurement and the clear. *)
Inductive rounds (api : string) (seconds : nat)
  : list json -> list contact -> Prop :=
| rounds_done : rounds api seconds [] []
| rounds_skipped policy rest status seen :
    status <> 200 ->
    rounds api seconds rest seen ->
    rounds api seconds (policy :: rest)
           (Posted (api ++ "/policy/apply")
                   (Some (JObj [("policy", policy)])) status
            :: seen)
| rounds_tested policy rest status seen :
    rounds api seconds rest seen ->
    rounds api seconds (policy :: rest)
           (Posted (api ++ "/policy/apply")
                   (Some (JObj [("policy", policy)])) 200
            :: Measured (iperf_command seconds) (seconds + 10)
            :: Posted (api ++ "/policy/clear") None status
            :: seen).

(** The dicts a complete iperf3 report is read from. *)
Definition report_parts (data : json) : option (dict * dict) :=
  match data with
  | JObj d =>
      match dict_get "end" d with
      | Some (JObj e) =>
          match dict_get "sum_sent" e, dict_get "sum_received" e with
          | Some (JObj sent), Some (JObj received) => Some (sent, received)
          | _, _ => None
          end
      | _ => None
      end
  | _ => None
  end.

(** The dicts of a report the parser may look into: the report, its
    end, and the two sums. *)
Definition report_dicts (data : json) : list dict :=
  match data with
  | JObj d =>
      d :: match dict_get "end" d with
           | Some (JObj e) =>
               e :: match dict_get "sum_sent" e with
                    | Some (JObj sent) => [sent]
                    | _ => []
                    end
                 ++ match dict_get "sum_received" e with
                    | Some (JObj received) => [received]
                    | _ => []
                    end
           | _ => []
           end
  | _ => []
  end.

(** The keys read with [[]]; the others are read with [.get(key, 0)]. *)
Definition mandatory_keys : list string :=
  ["end"; "sum_sent"; "sum_received"; "bits_per_second"; "bytes"].

(** [d.get(key, 0)] on a dict. *)
Definition get_or_zero (key : string) (d : dict) : json :=
  match dict_get key d with
  | Some value => value
  | None => JScalar "0"
  end.

(** A bench for trying the runner: the controller answers 200 for the
    policy "slow_link" and 400 for anything else, iperf3 prints the
    text of the world, and the parser knows one report. *)
Definition sample_report : json :=
  JObj [("end",
         JObj [("sum_sent", JObj [("bytes", JScalar "1250000");
                                  ("retransmits", JScalar "3")]);
               ("sum_received",
                JObj [("bits_per_second", JScalar "1000000.0")])])].

Definition sample_bench : Bench :=
  {| outside := string;
     requests_get := fun url o =>
       (inr {| status_code := 200;
               response_json :=
                 inr (JObj [("policies",
                             JList [JStr "nope"; JStr "slow_link"])]) |}, o);
     requests_post := fun url body o =>
       (inr {| status_code :=
                 match body with
                 | Some (JObj [(_, JStr "slow_link")]) => 200
                 | Some _ => 400
                 | None => 200
                 end;
               response_json := inl (JSONDecodeError "not read") |}, o);
     subprocess_run_list := fun cmd timeout o =>
       (inr {| returncode := 0; stdout := o; stderr := EmptyString |}, o);
     json_loads := fun text =>
       if String.eqb text "report" then Some sample_report else None;
     now_isoformat := fun _ => "2024-01-01T00:00:00";
     scalar_div_million := fun text =>
       if String.eqb text "1000000.0" then inr "1.0" else inl NotANumber;
     scalar_format_2f := fun text => inr text |}.

Definition sample_tester (o : string) : @tester sample_bench :=
  @Build_tester sample_bench "http://localhost:5000" 30 [] o [].

End TestRunner.

(** [l] with some elements left out, the others in their order. *)
Inductive subsequence {A : Type} : list A -> list A -> Prop :=
| subsequence_nil : subsequence [] []
| subsequence_skip x l l' : subsequence l l' -> subsequence l (x :: l')
| subsequence_keep x l l' :
    subsequence l l' -> subsequence (x :: l) (x :: l').

(** ** Basic facts *)

Lemma append_assoc (a b c : string) : (a ++ b) ++ c = a ++ b ++ c.
Proof. induction a as [|ch a IH]; simpl; [reflexivity | now rewrite IH]. Qed.

Section Basics.
Context `{H : Host}.

Lemma run_command_spec cmd st :
  run_command cmd st = (inr (result_at cmd st), ran cmd st).
Proof.
  unfold ran, result_at, run_command.
  destruct (subprocess_run cmd (kernel st)) as [outcome w]; reflexivity.
Qed.

Lemma ran_fields cmd st :
  kernel (ran cmd st) = snd (subprocess_run cmd (kernel st))
  /\ current_policy (ran cmd st) = current_policy st
  /\ history (ran cmd st)
     = (history st ++ [Ran cmd (result_at cmd st)])%list.
Proof.
  unfold ran, result_at, run_command.
  destruct (subprocess_run cmd (kernel st)) as [outcome w]; simpl.
  repeat split.
Qed.

Lemma new_events_app (st st' : state) events :
  history st' = (history st ++ events)%list ->
  new_events st st' = events.
Proof.
  intros E. unfold new_events. rewrite E.
  rewrite skipn_app, skipn_all, Nat.sub_diag. reflexivity.
Qed.

Lemma run_each_spec commands :
  forall st, exists stopped st' events,
    run_each commands st = (inr stopped, st')
    /\ current_policy st' = current_policy st
    /\ history st' = (history st ++ events)%list
    /\ loop_run commands events stopped.
Proof.
  induction commands as [|cmd rest IH]; intros st; simpl.
  - exists None, st, []. unfold ret.
    rewrite app_nil_r. repeat split; constructor.
  - unfold bind. rewrite run_command_spec.
    destruct (ran_fields cmd st) as (_ & P1 & H1).
    destruct (cmd_success (result_at cmd st)) eqn:S; simpl.
    + destruct (IH (ran cmd st)) as (stopped & st' & events & E' & P & Hh & L).
      exists stopped, st', (Ran cmd (result_at cmd st) :: events).
      rewrite E', P, Hh, P1, H1, <- app_assoc. simpl.
      repeat split. now constructor.
    + exists (Some (failed (cmd_error (result_at cmd st)) cmd)), (ran cmd st),
        [Ran cmd (result_at cmd st)].
      unfold ret. repeat split; trivial. now constructor.
Qed.

Lemma bind_run_command {A} cmd (k : cmd_result -> M A) st :
  bind (run_command cmd) k st = k (result_at cmd st) (ran cmd st).
Proof. unfold bind. now rewrite run_command_spec. Qed.

Lemma bind_clear_shaping {A} interface (k : cleared -> M A) st :
  bind (clear_shaping interface) k st
  = k {| cleared_status := "cleared";
         cleared_interface := interface_arg interface |}
      (ran (clear_command (interface_arg interface)) st).
Proof.
  unfold clear_shaping, bind at 1. rewrite bind_run_command. reflexivity.
Qed.

Lemma bind_set_current_policy {A} record (k : unit -> M A) st :
  bind (set_current_policy record) k st = k tt (recorded record st).
Proof. reflexivity. Qed.

Lemma bind_open_policies {A} (k : json -> M A) st :
  bind open_policies k st
  = match load_policies (kernel st) with
    | inr policies => k policies (opened st)
    | inl e => (inl e, opened st)
    end.
Proof. reflexivity. Qed.

Lemma bind_eval {A B} (r : exn + A) (k : A -> M B) st :
  bind (eval r) k st
  = match r with
    | inr a => k a st
    | inl e => (inl e, st)
    end.
Proof. reflexivity. Qed.

Lemma bind_returned {A B} (c : M A) (k : A -> M B) st a st' :
  c st = (inr a, st') -> bind c k st = k a st'.
Proof. intros E. unfold bind. now rewrite E. Qed.

Lemma history_opened st :
  history (opened st) = (history st ++ [OpenedPolicies])%list.
Proof. reflexivity. Qed.

Lemma history_recorded record st :
  history (recorded record st) = history st.
Proof. reflexivity. Qed.

Lemma history_ran cmd st :
  history (ran cmd st) = (history st ++ [Ran cmd (result_at cmd st)])%list.
Proof. apply ran_fields. Qed.

(** [apply_policy] always leaves through one of its exits. *)
Lemma apply_policy_exits policy_name interface st :
  apply_exit policy_name (interface_arg interface) st
    (fst (apply_policy policy_name interface st))
    (snd (apply_policy policy_name interface st)).
Proof.
  unfold apply_policy. rewrite bind_clear_shaping. simpl interface_arg.
  set (i := interface_arg interface).
  set (s1 := ran (clear_command i) st).
  destruct (String.eqb_spec policy_name "no_shaping") as [E|NE].
  - rewrite bind_set_current_policy. now constructor.
  - rewrite bind_open_policies.
    destruct (load_policies (kernel s1)) as [e|policies] eqn:L.
    { apply exit_raised; trivial. unfold prepare. fold s1. now rewrite L. }
    cbv beta; rewrite (bind_eval (py_in policy_name policies)).
    destruct (py_in policy_name policies) as [e|known] eqn:K.
    { apply exit_raised; trivial. unfold prepare. fold s1.
      now rewrite L; simpl; rewrite K. }
    destruct known; cbn [negb]; cbv iota.
    2:{ apply exit_not_found; trivial. unfold prepare. fold s1.
        now rewrite L; simpl; rewrite K. }
    cbv beta; rewrite (bind_eval (py_getitem policies policy_name)).
    destruct (py_getitem policies policy_name) as [e|policy] eqn:G.
    { apply exit_raised; trivial. unfold prepare. fold s1.
      now rewrite L; simpl; rewrite K; simpl; rewrite G. }
    cbv beta; rewrite (bind_eval (compile policy i)).
    destruct (compile policy i) as [e|compiled] eqn:C.
    { apply exit_raised; trivial. unfold prepare. fold s1.
      now rewrite L; simpl; rewrite K; simpl; rewrite G; simpl; rewrite C. }
    assert (P : prepare policy_name i (kernel s1)
                = inr (Some (policy, compiled))).
    { unfold prepare.
      now rewrite L; simpl; rewrite K; simpl; rewrite G; simpl; rewrite C. }
    destruct compiled as [cmd|commands|error].
    + cbv beta iota. rewrite bind_run_command.
      destruct (cmd_success (result_at cmd (opened s1))) eqn:S.
      * rewrite bind_set_current_policy.
        now apply exit_command_applied with (policy := policy).
      * now apply exit_command_failed with (policy := policy).
    + destruct (run_each_spec commands (opened s1))
        as (stopped & st' & events & E & _).
      cbv beta iota. rewrite (bind_returned _ _ _ _ _ E).
      destruct stopped as [failure|].
      * now apply exit_list_failed
          with (policy := policy) (commands := commands).
      * rewrite bind_set_current_policy.
        now apply exit_list_applied with (commands := commands).
    + now apply exit_unknown_type with (policy := policy).
Qed.

End Basics.

(** ** The compiler *)

Section Compiler.
Context `{H : Host}.

Lemma class_commands_spec interface items :
  forall classes i,
    classes_of items = Some classes ->
    class_commands interface i items
    = inr (map (render interface)
               (flat_map class_operations
                         (combine (seq i (length classes)) classes))).
Proof.
  induction items as [|class_cfg rest IH]; intros classes i E; simpl in E.
  - injection E as <-. reflexivity.
  - destruct (class_view class_cfg) as [[rate ceil]|] eqn:V; [|discriminate].
    destruct (classes_of rest) as [cs|] eqn:R; [|discriminate].
    injection E as <-.
    destruct class_cfg as [| |?|d]; try discriminate. simpl in V.
    simpl. destruct (dict_get "rate" d) as [r|] eqn:Hr; [|discriminate].
    simpl. rewrite (IH cs (S i) eq_refl). simpl.
    injection V as <- <-.
    destruct (dict_get "ceil" d); simpl;
      rewrite ?append_assoc; reflexivity.
Qed.

End Compiler.

Lemma to_uint_not_nil (n : nat) : Nat.to_uint n <> Nil.
Proof.
  rewrite <- (DecimalNat.Unsigned.of_to n) at 1.
  rewrite DecimalNat.Unsigned.to_of.
  unfold unorm. destruct (nzhead (Nat.to_uint n)); discriminate.
Qed.

Lemma str_of_nat_inj (n m : nat) : str_of_nat n = str_of_nat m -> n = m.
Proof.
  unfold str_of_nat. intros E.
  apply DecimalNat.Unsigned.to_uint_inj.
  pose proof (NilZero.usu _ (to_uint_not_nil n)) as Hn.
  pose proof (NilZero.usu _ (to_uint_not_nil m)) as Hm.
  rewrite E in Hn. congruence.
Qed.

Lemma NoDup_map_str_of_nat (ids : list nat) :
  NoDup ids -> NoDup (map str_of_nat ids).
Proof.
  induction 1 as [|id ids Hin _ IH]; simpl; constructor; trivial.
  intros Hm. apply in_map_iff in Hm as (id' & E & Hin').
  apply str_of_nat_inj in E. now subst.
Qed.

Lemma classes_of_length items :
  forall classes, classes_of items = Some classes ->
                  length classes = length items.
Proof.
  induction items as [|c rest IH]; simpl; intros classes E.
  - now injection E as <-.
  - destruct (class_view c); [|discriminate].
    destruct (classes_of rest) as [cs|]; [|discriminate].
    injection E as <-. simpl. now rewrite (IH cs eq_refl).
Qed.

Lemma class_operations_shape (classes : list (json * json)) :
  forall start,
    let ops := flat_map class_operations
                        (combine (seq start (length classes)) classes) in
    length ops = 2 * length classes
    /\ map action_of ops
       = concat (repeat [add_class; add_child_discipline] (length classes))
    /\ class_ids ops = seq start (length classes)
    /\ child_ids ops = seq start (length classes).
Proof.
  induction classes as [|c cs IH]; intros start; simpl.
  - repeat split.
  - destruct (IH (S start)) as (L & A & I & C). simpl in *.
    rewrite L, A, I, C. repeat split. lia.
Qed.

Section CompilerClaims.
Context `{H : Host}.

(** C4.  A hierarchical-bandwidth (htb) descriptor with a total
    bandwidth and N classes, each with a rate, compiles to the rendering
    of [htb_operations]: 2 + 2*N operations, namely one
    set-root-discipline, one aggregate add-class, then per class in
    descriptor order one add-class and one add-child-discipline.  The
    class identifiers are 10, 11, ..., 10+N-1 in descriptor order, none is
    used twice (as numbers and as printed), none is the aggregate's 1, and
    [compile], which takes the descriptor and the interface and nothing
    else, can give no other plan for them. *)
Theorem compile_htb_operations (d : dict) (interface : string)
  (total : json) (items : list json) (classes : list (json * json)) :
  dict_get "type" d = Some (JStr "htb") ->
  dict_get "total_bandwidth" d = Some total ->
  dict_get "classes" d = Some (JList items) ->
  classes_of items = Some classes ->
  let ops := htb_operations total classes in
  compile (JObj d) interface = inr (CommandList (map (render interface) ops))
  /\ length ops = 2 + 2 * length items
  /\ map action_of ops
     = set_root_discipline :: add_class
       :: concat (repeat [add_class; add_child_discipline] (length items))
  /\ class_ids ops = seq 10 (length items)
  /\ child_ids ops = seq 10 (length items)
  /\ NoDup (class_ids ops)
  /\ NoDup (map str_of_nat (class_ids ops))
  /\ ~ In 1 (class_ids ops)
  /\ (forall compiled,
        compile (JObj d) interface = inr compiled ->
        compiled = CommandList (map (render interface) ops)).
Proof.
  intros Ht Hb Hc Hcs ops.
  assert (C : compile (JObj d) interface
              = inr (CommandList (map (render interface) ops))).
  { unfold compile. simpl. rewrite Ht. simpl.
    unfold htb_commands. simpl. rewrite Hb, Hc. simpl.
    rewrite (class_commands_spec interface items classes 10 Hcs).
    reflexivity. }
  pose proof (classes_of_length items classes Hcs) as Hl.
  destruct (class_operations_shape classes 10) as (L & A & I & Ch).
  assert (Ids : class_ids ops = seq 10 (length items)).
  { unfold ops, htb_operations. simpl. now rewrite I, Hl. }
  repeat split.
  - exact C.
  - unfold ops, htb_operations. simpl. rewrite L, Hl. lia.
  - unfold ops, htb_operations. simpl. now rewrite A, Hl.
  - exact Ids.
  - unfold ops, htb_operations. simpl. now rewrite Ch, Hl.
  - rewrite Ids. apply seq_NoDup.
  - rewrite Ids. apply NoDup_map_str_of_nat, seq_NoDup.
  - rewrite Ids. intros Hin. apply in_seq in Hin. lia.
  - intros compiled E. rewrite C in E. now injection E as <-.
Qed.

(** C8.  A network-emulation (netem) descriptor compiles to exactly one
    command, the set-root-discipline operation whose parameters are the
    attributes present among delay, jitter, loss, rate, in that order:
    the fields of the operation are [netem_fields] with the absent ones
    left out, whichever subset is present, each with the descriptor's
    value. *)
Theorem compile_netem_one_operation (d : dict) (interface : string) :
  dict_get "type" d = Some (JStr "netem") ->
  compile (JObj d) interface
  = inr (OneCommand (render interface (SetRootNetem (netem_params d))))
  /\ action_of (SetRootNetem (netem_params d)) = set_root_discipline
  /\ map fst (netem_params d)
     = filter (fun field => dict_has field d) netem_fields
  /\ (forall field value,
        In (field, value) (netem_params d)
        <-> In field netem_fields /\ dict_get field d = Some value).
Proof.
  intros Ht.
  split; [|split; [reflexivity|split]].
  - unfold compile. simpl. rewrite Ht. simpl.
    unfold netem_command, append_if_present, netem_params, dict_has. simpl.
    unfold dict_has.
    destruct (dict_get "delay" d), (dict_get "jitter" d),
      (dict_get "loss" d), (dict_get "rate" d); reflexivity.
  - unfold netem_params, dict_has. simpl.
    destruct (dict_get "delay" d), (dict_get "jitter" d),
      (dict_get "loss" d), (dict_get "rate" d); reflexivity.
  - intros field value. unfold netem_params. rewrite in_flat_map. split.
    + intros (f & Hf & Hin).
      destruct (dict_get f d) as [v|] eqn:G; simpl in Hin; [|contradiction].
      destruct Hin as [E|[]]. injection E as <- <-. now split.
    + intros [Hf G]. exists field. split; trivial. rewrite G. now left.
Qed.

(** C5, as the code has it.  For a descriptor of the policy file whose
    type is the string [kind]: when the kind is cake, netem or htb,
    [compile] never answers with the unknown-type error; for every other
    kind, "none" included, it answers with the error text
    "Unknown policy type: " followed by the kind. *)
Theorem compile_unknown_type_iff (d : dict) (kind interface : string) :
  dict_get "type" d = Some (JStr kind) ->
  (In kind compiled_kinds ->
   forall error, compile (JObj d) interface <> inr (UnknownType error))
  /\ (~ In kind compiled_kinds ->
      compile (JObj d) interface
      = inr (UnknownType ("Unknown policy type: " ++ kind))).
Proof.
  intros Ht. unfold compile. simpl py_getitem. rewrite Ht.
  cbn [and_then json_eq_str]. split.
  - intros [<-|[<-|[<-|[]]]] error; simpl.
    + destruct (cake_command (JObj d) interface); discriminate.
    + destruct (netem_command (JObj d) interface); discriminate.
    + destruct (htb_commands (JObj d) interface); discriminate.
  - intros N.
    destruct (String.eqb_spec kind "cake") as [->|_].
    { exfalso. apply N. simpl. tauto. }
    destruct (String.eqb_spec kind "netem") as [->|_].
    { exfalso. apply N. simpl. tauto. }
    destruct (String.eqb_spec kind "htb") as [->|_].
    { exfalso. apply N. simpl. tauto. }
    reflexivity.
Qed.

End CompilerClaims.

Lemma compile_htb_operations_witness :
  let ops := htb_operations (JStr "100mbit")
               [(JStr "50mbit", JStr "100mbit"); (JStr "bogus", JStr "bogus");
                (JStr "10mbit", JStr "10mbit")] in
  @compile (lab_host (inr lab_catalog) never) (JObj tiers_descriptor) "eth1"
  = inr (CommandList
           (map (@render (lab_host (inr lab_catalog) never) "eth1") ops))
  /\ length ops = 8
  /\ class_ids ops = [10; 11; 12].
Proof.
  destruct (@compile_htb_operations (lab_host (inr lab_catalog) never)
              tiers_descriptor "eth1" (JStr "100mbit")
              [ JObj [("rate", JStr "50mbit"); ("ceil", JStr "100mbit")];
                JObj [("rate", JStr "bogus")];
                JObj [("rate", JStr "10mbit")] ]
              [(JStr "50mbit", JStr "100mbit"); (JStr "bogus", JStr "bogus");
               (JStr "10mbit", JStr "10mbit")]
              eq_refl eq_refl eq_refl eq_refl)
    as (C & L & _ & I & _).
  repeat split; assumption.
Defined.

Lemma compile_netem_one_operation_witness :
  @compile (lab_host (inr lab_catalog) never) (JObj slow_link_descriptor)
           "eth1"
  = inr (OneCommand "tc qdisc add dev eth1 root netem delay 100ms loss 1%").
Proof.
  exact (proj1 (@compile_netem_one_operation
                  (lab_host (inr lab_catalog) never)
                  slow_link_descriptor "eth1" eq_refl)).
Defined.

(** ** The loop over the compiled commands *)

Lemma loop_run_failure commands events stopped :
  loop_run commands events stopped ->
  forall k cmd result,
    nth_error events k = Some (Ran cmd result) ->
    cmd_success result = false ->
    length events = S k
    /\ nth_error commands k = Some cmd
    /\ commands_of events = firstn (S k) commands
    /\ stopped = Some (failed (cmd_error result) cmd).
Proof.
  induction 1 as [|c rest r Hr|c rest r events stopped Hr L IH];
    intros k cmd result Hk Hf.
  - destruct k; discriminate.
  - destruct k as [|k]; simpl in Hk.
    + injection Hk as -> ->. repeat split.
    + destruct k; discriminate.
  - destruct k as [|k]; simpl in Hk.
    + injection Hk as -> ->. congruence.
    + destruct (IH k cmd result Hk Hf) as (Hl & Hn & Hc & Hs).
      simpl. rewrite Hl. repeat split; trivial.
      simpl in Hc. now rewrite Hc.
Qed.

Lemma loop_run_stopped commands events stopped :
  loop_run commands events stopped ->
  match stopped with
  | Some failure =>
      r_success failure = false
      /\ exists cmd, r_command failure = Some cmd /\ In cmd commands
  | None => commands_of events = commands
  end.
Proof.
  induction 1 as [|c rest r Hr|c rest r events stopped Hr L IH]; simpl.
  - reflexivity.
  - split; trivial. exists c. split; trivial. now left.
  - destruct stopped as [failure|].
    + destruct IH as (S & cmd & C & I). split; trivial.
      exists cmd. split; trivial. now right.
    + now rewrite IH.
Qed.

Section LoopClaims.
Context `{H : Host}.

(** In the loop that runs a command list, if the k-th command run
    (counting from 0) fails, it is the last one run, and the loop returns
    the failure dict with this command and the error text of its result. *)
Lemma run_each_stops_at_first_failure (commands : list string) (st : state)
  (k : nat) (cmd : string) (result : cmd_result) :
  nth_error (new_events st (snd (run_each commands st))) k
  = Some (Ran cmd result) ->
  cmd_success result = false ->
  length (new_events st (snd (run_each commands st))) = S k
  /\ nth_error commands k = Some cmd
  /\ commands_of (new_events st (snd (run_each commands st)))
     = firstn (S k) commands
  /\ fst (run_each commands st)
     = inr (Some (failed (cmd_error result) cmd)).
Proof.
  destruct (run_each_spec commands st)
    as (stopped & st' & events & E & _ & Hh & L).
  rewrite E. simpl fst. simpl snd.
  rewrite (new_events_app st st' events Hh).
  intros Hk Hf.
  destruct (loop_run_failure commands events stopped L k cmd result Hk Hf)
    as (A & B & C & D).
  repeat split; trivial. now rewrite D.
Qed.

End LoopClaims.

(** ** The record across [apply_policy] *)

Section Record.
Context `{H : Host}.

Lemma prepare_compiled policy_name interface w policy compiled :
  prepare policy_name interface w = inr (Some (policy, compiled)) ->
  exists policies,
    load_policies w = inr policies
    /\ py_in policy_name policies = inr true
    /\ py_getitem policies policy_name = inr policy
    /\ compile policy interface = inr compiled.
Proof.
  unfold prepare. intros E.
  destruct (load_policies w) as [e|policies] eqn:L; [discriminate|].
  simpl in E.
  destruct (py_in policy_name policies) as [e|[|]] eqn:K; try discriminate.
  simpl in E.
  destruct (py_getitem policies policy_name) as [e|p] eqn:G;
    [discriminate|].
  simpl in E.
  destruct (compile p interface) as [e|c] eqn:C; [discriminate|].
  simpl in E. injection E as <- <-. now exists policies.
Qed.

Lemma run_each_returned commands st out st' :
  run_each commands st = (out, st') ->
  exists stopped events,
    out = inr stopped
    /\ current_policy st' = current_policy st
    /\ history st' = (history st ++ events)%list
    /\ loop_run commands events stopped.
Proof.
  intros E.
  destruct (run_each_spec commands st) as (stopped & st2 & events & E2 & R).
  rewrite E in E2. injection E2 as E3 E4. subst out st2.
  exists stopped, events. split; [reflexivity | exact R].
Qed.

(** A call that does not succeed leaves the record alone. *)
Lemma apply_exit_failure policy_name interface st out st' :
  apply_exit policy_name interface st out st' ->
  succeeded out = false ->
  current_policy st' = current_policy st.
Proof.
  intros X F.
  destruct X as [E|e NE P|NE P|policy error NE P|policy cmd NE P S
                 |policy cmd NE P S|policy commands failure st' NE P R
                 |policy commands st' NE P R];
    simpl in F; try discriminate.
  - apply ran_fields.
  - apply ran_fields.
  - apply ran_fields.
  - unfold opened, open_policies. simpl.
    transitivity (current_policy (opened (ran (clear_command interface) st))).
    + apply ran_fields.
    + apply ran_fields.
  - apply run_each_returned in R as (stopped & events & _ & C & _).
    rewrite C. apply ran_fields.
Qed.

(** A call that succeeds writes the name and the descriptor it used. *)
Lemma apply_exit_success policy_name interface st out st' :
  apply_exit policy_name interface st out st' ->
  succeeded out = true ->
  exists descriptor,
    current_policy st' = active_record policy_name descriptor
    /\ ((policy_name = "no_shaping"
         /\ descriptor = JObj [("type", JStr "none")])
        \/ (policy_name <> "no_shaping"
            /\ exists policies,
                load_policies (kernel (ran (clear_command interface) st))
                = inr policies
                /\ py_getitem policies policy_name = inr descriptor)).
Proof.
  intros X S.
  destruct X as [E|e NE P|NE P|policy error NE P|policy cmd NE P S'
                 |policy cmd NE P S'|policy commands failure st' NE P R
                 |policy commands st' NE P R];
    simpl in S; try discriminate.
  - exists (JObj [("type", JStr "none")]). split; [reflexivity|]. now left.
  - exists policy. split; [reflexivity|]. right. split; trivial.
    apply prepare_compiled in P as (policies & L & _ & G & _).
    now exists policies.
  - apply run_each_returned in R as (stopped & events & E & _ & _ & L).
    injection E as <-. apply loop_run_stopped in L as (F & _). congruence.
  - exists policy. split; [reflexivity|]. right. split; trivial.
    apply prepare_compiled in P as (policies & L & _ & G & _).
    now exists policies.
Qed.

(** A failure without a ["command"] is one found before any command of
    the policy was run. *)
Lemma apply_exit_before_commands policy_name interface st r st' :
  apply_exit policy_name interface st (inr r) st' ->
  r_success r = false ->
  r_command r = None ->
  st' = opened (ran (clear_command interface) st)
  /\ (r = not_found policy_name \/ exists error, r = unknown_type error).
Proof.
  intros X F C.
  inversion X as [E|e NE P|NE P|policy error NE P|policy cmd NE P S'
                  |policy cmd NE P S'|policy commands failure st2 NE P R
                  |policy commands st2 NE P R];
    subst; simpl in F, C; try discriminate.
  - split; trivial. now left.
  - split; trivial. right. now exists error.
  - apply run_each_returned in R as (stopped & events & E & _ & _ & L).
    injection E as <-. apply loop_run_stopped in L as (_ & cmd & Hc & _).
    congruence.
Qed.

(** The events of a call: the clear, then the opening of the policy
    file unless the name is "no_shaping", then the commands of the plan as
    far as the loop gets. *)
Lemma apply_exit_events policy_name interface st out st' :
  apply_exit policy_name interface st out st' ->
  new_events st st'
  = [Ran (clear_command interface) (result_at (clear_command interface) st)]
  \/ new_events st st'
     = [Ran (clear_command interface)
            (result_at (clear_command interface) st);
        OpenedPolicies]
  \/ exists policy compiled events stopped,
      prepare policy_name interface
              (kernel (ran (clear_command interface) st))
      = inr (Some (policy, compiled))
      /\ new_events st st'
         = Ran (clear_command interface)
               (result_at (clear_command interface) st)
           :: OpenedPolicies :: events
      /\ loop_run (plan_commands compiled) events stopped
      /\ (forall failure, stopped = Some failure -> out = inr failure).
Proof.
  intros X.
  pose proof (history_ran (clear_command interface) st) as Hh.
  destruct X as [E|e NE P|NE P|policy error NE P|policy cmd NE P S
                 |policy cmd NE P S|policy commands failure st' NE P R
                 |policy commands st' NE P R].
  - left. apply new_events_app. now rewrite history_recorded.
  - right; left. apply new_events_app.
    now rewrite history_opened, Hh, <- app_assoc.
  - right; left. apply new_events_app.
    now rewrite history_opened, Hh, <- app_assoc.
  - right; left. apply new_events_app.
    now rewrite history_opened, Hh, <- app_assoc.
  - right; right.
    exists policy, (OneCommand cmd),
      [Ran cmd (result_at cmd (opened (ran (clear_command interface) st)))],
      (Some (failed (cmd_error
                       (result_at cmd
                          (opened (ran (clear_command interface) st))))
                    cmd)).
    split; [exact P|]. split; [|split].
    + apply new_events_app.
      now rewrite history_ran, history_opened, Hh, <- !app_assoc.
    + now apply loop_stop.
    + intros failure E. now injection E as <-.
  - right; right.
    exists policy, (OneCommand cmd),
      [Ran cmd (result_at cmd (opened (ran (clear_command interface) st)))],
      None.
    split; [exact P|]. split; [|split].
    + apply new_events_app.
      now rewrite history_recorded, history_ran, history_opened, Hh,
        <- !app_assoc.
    + apply loop_next; [exact S | constructor].
    + discriminate.
  - right; right.
    apply run_each_returned in R as (stopped & events & E & _ & Hh2 & L).
    injection E as <-.
    exists policy, (CommandList commands), events, (Some failure).
    split; [exact P|]. split; [|split].
    + apply new_events_app.
      now rewrite Hh2, history_opened, Hh, <- !app_assoc.
    + exact L.
    + intros f E. now injection E as <-.
  - right; right.
    apply run_each_returned in R as (stopped & events & E & _ & Hh2 & L).
    injection E as <-.
    exists policy, (CommandList commands), events, None.
    split; [exact P|]. split; [|split].
    + apply new_events_app.
      now rewrite history_recorded, Hh2, history_opened, Hh, <- !app_assoc.
    + exact L.
    + discriminate.
Qed.

Lemma get_current_policy_spec st :
  get_current_policy st
  = (match cmd_output (result_at "tc qdisc show dev eth1" st) with
     | Some output =>
         inr {| reply_current_policy := current_policy st;
                reply_tc_status := output |}
     | None => inl (KeyError "output")
     end,
     ran "tc qdisc show dev eth1" st).
Proof.
  unfold get_current_policy. rewrite bind_run_command.
  destruct (ran_fields "tc qdisc show dev eth1" st) as (_ & P & _).
  rewrite P.
  now destruct (cmd_output (result_at "tc qdisc show dev eth1" st)).
Qed.

(** The two ways out of the current-policy query, by what the tc process
    did: a process that ran to its end, whatever its exit status, gives
    the reply; one that could not be run leaves no "output" to read. *)
Lemma get_current_policy_finished st p :
  fst (subprocess_run "tc qdisc show dev eth1" (kernel st)) = inr p ->
  fst (get_current_policy st)
  = inr {| reply_current_policy := current_policy st;
           reply_tc_status := stdout p |}.
Proof.
  intros E. rewrite get_current_policy_spec. unfold result_at.
  now rewrite E.
Qed.

Lemma get_current_policy_not_run st text :
  fst (subprocess_run "tc qdisc show dev eth1" (kernel st)) = inl text ->
  fst (get_current_policy st) = inl (KeyError "output").
Proof.
  intros E. rewrite get_current_policy_spec. unfold result_at.
  now rewrite E.
Qed.




End Record.

(** ** The record and the kernel across a call *)

Section StateClaims.
Context `{H : Host}.

(** C1, as the code has it.  When the record says Active(P) and
    [apply_policy] for Q does not succeed (it returns a failure dict or
    lets an exception escape), the record still says Active(P) afterwards,
    and that is what the current-policy query reports when it answers. *)
Theorem failed_apply_keeps_active_policy (policy_name : string)
  (interface : option string) (st : state) (p : string) :
  machine_state (current_policy st) = Active p ->
  succeeded (fst (apply_policy policy_name interface st)) = false ->
  machine_state
    (current_policy (snd (apply_policy policy_name interface st)))
  = Active p
  /\ (forall reply,
        fst (get_current_policy (snd (apply_policy policy_name interface st)))
        = inr reply ->
        machine_state (reply_current_policy reply) = Active p).
Proof.
  intros A F.
  pose proof (apply_exit_failure _ _ _ _ _
                (apply_policy_exits policy_name interface st) F) as R.
  split.
  - now rewrite R.
  - intros reply Q. rewrite get_current_policy_spec in Q. simpl in Q.
    destruct (cmd_output _); [|discriminate].
    injection Q as <-. simpl. now rewrite R.
Qed.

(** C2, as the code has it.  When [apply_policy] does not succeed
    (failure dict or escaped exception, the unknown name included), the
    record afterwards is the record before: same name, same status, same
    config.  So the record says active with some descriptor afterwards
    only if it said so before the call: a failed call never makes the
    record name a descriptor as active, and a record that named the
    policy as active before the call still does after it. *)
Theorem failed_apply_leaves_record (policy_name : string)
  (interface : option string) (st : state) :
  succeeded (fst (apply_policy policy_name interface st)) = false ->
  name (current_policy (snd (apply_policy policy_name interface st)))
  = name (current_policy st)
  /\ status (current_policy (snd (apply_policy policy_name interface st)))
     = status (current_policy st)
  /\ config (current_policy (snd (apply_policy policy_name interface st)))
     = config (current_policy st)
  /\ (forall descriptor,
        current_policy (snd (apply_policy policy_name interface st))
        = active_record policy_name descriptor ->
        current_policy st = active_record policy_name descriptor)
  /\ (forall descriptor,
        status (current_policy (snd (apply_policy policy_name interface st)))
        = active ->
        config (current_policy (snd (apply_policy policy_name interface st)))
        = Some descriptor ->
        status (current_policy st) = active
        /\ config (current_policy st) = Some descriptor).
Proof.
  intros F.
  rewrite (apply_exit_failure _ _ _ _ _
             (apply_policy_exits policy_name interface st) F).
  repeat split; trivial.
Qed.

(** C3, as the code has it.  A failure dict without a command is the one
    for an unknown name or for an unknown type.  When [apply_policy]
    returns it, the one command run on the interface is the clear that
    opens every call, run before the policy file is read: the kernel is
    left as that clear leaves it, no command of the policy is run, and
    the record is untouched. *)
Theorem compile_failure_runs_only_the_clear (policy_name : string)
  (interface : option string) (st : state) (r : response) :
  fst (apply_policy policy_name interface st) = inr r ->
  r_success r = false ->
  r_command r = None ->
  (r = not_found policy_name \/ exists error, r = unknown_type error)
  /\ new_events st (snd (apply_policy policy_name interface st))
     = [Ran (clear_command (interface_arg interface))
            (result_at (clear_command (interface_arg interface)) st);
        OpenedPolicies]
  /\ commands_of (new_events st (snd (apply_policy policy_name interface st)))
     = [clear_command (interface_arg interface)]
  /\ kernel (snd (apply_policy policy_name interface st))
     = snd (subprocess_run (clear_command (interface_arg interface))
                           (kernel st))
  /\ current_policy (snd (apply_policy policy_name interface st))
     = current_policy st.
Proof.
  intros E F C.
  pose proof (apply_policy_exits policy_name interface st) as X.
  rewrite E in X.
  destruct (apply_exit_before_commands _ _ _ _ _ X F C) as (S & R).
  rewrite S.
  destruct (ran_fields (clear_command (interface_arg interface)) st)
    as (K & P & Hh).
  assert (N : new_events st
                (opened (ran (clear_command (interface_arg interface)) st))
              = [Ran (clear_command (interface_arg interface))
                     (result_at (clear_command (interface_arg interface)) st);
                 OpenedPolicies]).
  { apply new_events_app. unfold opened, open_policies. simpl.
    rewrite Hh, <- app_assoc. reflexivity. }
  rewrite N. repeat split; trivial.
Qed.


(** C7.  After a call of [apply_policy] that returns success the record
    is Active with the name applied and, as config, the descriptor that
    was used: the built-in kind-none descriptor for "no_shaping", the
    entry of the policy file (as read after the clear) otherwise; the
    current-policy query reports that record, and does report it
    whenever its tc process runs to its end.  After the clear handler,
    which always returns success, the record is the initial one: status
    inactive, name "none", no config.  The three keys of the record are
    stated one by one. *)
Theorem success_is_recorded :
  (forall (policy_name : string) (interface : option string) (st : state),
      succeeded (fst (apply_policy policy_name interface st)) = true ->
      exists descriptor,
        current_policy (snd (apply_policy policy_name interface st))
        = active_record policy_name descriptor
        /\ (name (current_policy (snd (apply_policy policy_name interface st)))
            = policy_name
            /\ status
                 (current_policy (snd (apply_policy policy_name interface st)))
               = active
            /\ config
                 (current_policy (snd (apply_policy policy_name interface st)))
               = Some descriptor)
        /\ machine_state
             (current_policy (snd (apply_policy policy_name interface st)))
           = Active policy_name
        /\ ((policy_name = "no_shaping"
             /\ descriptor = JObj [("type", JStr "none")])
            \/ (policy_name <> "no_shaping"
                /\ exists policies,
                    load_policies
                      (kernel (ran (clear_command (interface_arg interface))
                                   st))
                    = inr policies
                    /\ py_getitem policies policy_name = inr descriptor))
        /\ (forall reply,
              fst (get_current_policy
                     (snd (apply_policy policy_name interface st)))
              = inr reply ->
              reply_current_policy reply
              = active_record policy_name descriptor)
        /\ (forall p,
              fst (subprocess_run "tc qdisc show dev eth1"
                     (kernel (snd (apply_policy policy_name interface st))))
              = inr p ->
              exists reply,
                fst (get_current_policy
                       (snd (apply_policy policy_name interface st)))
                = inr reply
                /\ name (reply_current_policy reply) = policy_name
                /\ status (reply_current_policy reply) = active
                /\ config (reply_current_policy reply) = Some descriptor))
  /\ (forall (body : option request) (st : state),
         (exists result,
             fst (clear_policy_endpoint body st)
             = inr {| clear_success := true; clear_result := result |})
         /\ current_policy (snd (clear_policy_endpoint body st))
            = initial_policy
         /\ (name (current_policy (snd (clear_policy_endpoint body st)))
             = "none"
             /\ status (current_policy (snd (clear_policy_endpoint body st)))
                = inactive
             /\ config (current_policy (snd (clear_policy_endpoint body st)))
                = None)
         /\ machine_state
              (current_policy (snd (clear_policy_endpoint body st)))
            = Inactive
         /\ (forall reply,
               fst (get_current_policy (snd (clear_policy_endpoint body st)))
               = inr reply ->
               reply_current_policy reply = initial_policy)
         /\ (forall p,
               fst (subprocess_run "tc qdisc show dev eth1"
                      (kernel (snd (clear_policy_endpoint body st))))
               = inr p ->
               exists reply,
                 fst (get_current_policy
                        (snd (clear_policy_endpoint body st)))
                 = inr reply
                 /\ name (reply_current_policy reply) = "none"
                 /\ status (reply_current_policy reply) = inactive
                 /\ config (reply_current_policy reply) = None)).
Proof.
  split.
  - intros policy_name interface st S.
    destruct (apply_exit_success _ _ _ _ _
                (apply_policy_exits policy_name interface st) S)
      as (descriptor & R & D).
    exists descriptor.
    split; [exact R|]. split; [now rewrite R|]. split; [now rewrite R|].
    split; [exact D|]. split.
    + intros reply Q. rewrite get_current_policy_spec in Q. simpl in Q.
      destruct (cmd_output _); [|discriminate].
      injection Q as <-. simpl. exact R.
    + intros p Q. eexists.
      split; [exact (get_current_policy_finished _ p Q)|].
      cbn [reply_current_policy]. now rewrite R.
  - intros body st.
    assert (R : current_policy (snd (clear_policy_endpoint body st))
                = initial_policy).
    { unfold clear_policy_endpoint.
      now rewrite bind_clear_shaping, bind_set_current_policy. }
    split.
    { unfold clear_policy_endpoint.
      rewrite bind_clear_shaping, bind_set_current_policy.
      eexists; reflexivity. }
    split; [exact R|]. split; [now rewrite R|]. split; [now rewrite R|].
    split.
    + intros reply Q. rewrite get_current_policy_spec in Q. simpl in Q.
      destruct (cmd_output _); [|discriminate].
      injection Q as <-. simpl. exact R.
    + intros p Q. eexists.
      split; [exact (get_current_policy_finished _ p Q)|].
      cbn [reply_current_policy]. now rewrite R.
Qed.

(** C9.  [apply_policy] with the name "no_shaping" returns success and
    leaves the record Active("no_shaping"), on every host: the one thing
    it does outside is the clear command, the policy file is not opened,
    so neither its content nor a failure to load it can change the
    outcome. *)
Theorem no_shaping_skips_the_catalog (interface : option string)
  (st : state) :
  apply_policy "no_shaping" interface st
  = (inr (applied "no_shaping" None None (Some "No shaping applied")),
     recorded (active_record "no_shaping" (JObj [("type", JStr "none")]))
              (ran (clear_command (interface_arg interface)) st))
  /\ succeeded (fst (apply_policy "no_shaping" interface st)) = true
  /\ machine_state
       (current_policy (snd (apply_policy "no_shaping" interface st)))
     = Active "no_shaping"
  /\ new_events st (snd (apply_policy "no_shaping" interface st))
     = [Ran (clear_command (interface_arg interface))
            (result_at (clear_command (interface_arg interface)) st)]
  /\ ~ In OpenedPolicies
          (new_events st (snd (apply_policy "no_shaping" interface st))).
Proof.
  assert (E : apply_policy "no_shaping" interface st
              = (inr (applied "no_shaping" None None
                              (Some "No shaping applied")),
                 recorded (active_record "no_shaping"
                                         (JObj [("type", JStr "none")]))
                          (ran (clear_command (interface_arg interface))
                               st))).
  { unfold apply_policy. rewrite bind_clear_shaping. reflexivity. }
  rewrite E. simpl fst. simpl snd.
  assert (N : new_events st
                (recorded (active_record "no_shaping"
                                         (JObj [("type", JStr "none")]))
                          (ran (clear_command (interface_arg interface)) st))
              = [Ran (clear_command (interface_arg interface))
                     (result_at (clear_command (interface_arg interface))
                                st)]).
  { apply new_events_app. unfold recorded. simpl. apply ran_fields. }
  rewrite N. repeat split.
  intros [X|[]]. discriminate.
Qed.

End StateClaims.

(** ** The default interface *)

Section InterfaceClaims.
Context `{H : Host}.

(** C10, as the code has it.  A call of [apply_policy] or
    [clear_shaping] that leaves the interface out is the call with "eth1",
    and so is a POST to the apply or clear handler whose body has no
    interface member (or, for clear, no body at all): the first command
    run is the clear of eth1.  The current-policy query runs
    "tc qdisc show dev eth1" and nothing else, in every state, the one
    left by an apply to any other interface included, and the status text
    of its answer is the output of that command.  It does answer whenever
    the tc process runs to its end, with whatever exit status: the reply
    then carries the standard output of the process and the record, also
    right after an apply to any interface. *)
Theorem default_interface_is_eth1 :
  (forall policy_name st,
      apply_policy policy_name None st
      = apply_policy policy_name (Some "eth1") st)
  /\ (forall st, clear_shaping None st = clear_shaping (Some "eth1") st)
  /\ (forall policy st,
         apply_policy_endpoint
           (Some {| req_policy := policy; req_interface := None |}) st
         = apply_policy_endpoint
             (Some {| req_policy := policy; req_interface := Some "eth1" |})
             st)
  /\ (forall policy st,
         clear_policy_endpoint None st
         = clear_policy_endpoint
             (Some {| req_policy := policy; req_interface := Some "eth1" |})
             st
         /\ clear_policy_endpoint
              (Some {| req_policy := policy; req_interface := None |}) st
            = clear_policy_endpoint None st)
  /\ (forall policy_name st,
         nth_error (new_events st (snd (apply_policy policy_name None st))) 0
         = Some (Ran "tc qdisc del dev eth1 root 2>/dev/null || true"
                     (result_at
                        "tc qdisc del dev eth1 root 2>/dev/null || true"
                        st)))
  /\ (forall st,
         new_events st (snd (clear_policy_endpoint None st))
         = [Ran "tc qdisc del dev eth1 root 2>/dev/null || true"
                (result_at
                   "tc qdisc del dev eth1 root 2>/dev/null || true" st)])
  /\ (forall st,
         commands_of (new_events st (snd (get_current_policy st)))
         = ["tc qdisc show dev eth1"]
         /\ forall reply,
             fst (get_current_policy st) = inr reply ->
             cmd_output (result_at "tc qdisc show dev eth1" st)
             = Some (reply_tc_status reply))
  /\ (forall policy_name interface st,
         commands_of
           (new_events
              (snd (apply_policy policy_name (Some interface) st))
              (snd (get_current_policy
                      (snd (apply_policy policy_name (Some interface) st)))))
         = ["tc qdisc show dev eth1"])
  /\ (forall st p,
         fst (subprocess_run "tc qdisc show dev eth1" (kernel st)) = inr p ->
         exists reply,
           fst (get_current_policy st) = inr reply
           /\ reply_tc_status reply = stdout p
           /\ reply_current_policy reply = current_policy st)
  /\ (forall policy_name interface st p,
         fst (subprocess_run "tc qdisc show dev eth1"
                (kernel (snd (apply_policy policy_name (Some interface) st))))
         = inr p ->
         exists reply,
           fst (get_current_policy
                  (snd (apply_policy policy_name (Some interface) st)))
           = inr reply
           /\ reply_tc_status reply = stdout p
           /\ reply_current_policy reply
              = current_policy
                  (snd (apply_policy policy_name (Some interface) st))).
Proof.
  assert (Q : forall st,
             commands_of (new_events st (snd (get_current_policy st)))
             = ["tc qdisc show dev eth1"]).
  { intros st. rewrite get_current_policy_spec. simpl snd.
    rewrite (new_events_app st _ [Ran "tc qdisc show dev eth1"
                                      (result_at "tc qdisc show dev eth1" st)]).
    - reflexivity.
    - apply ran_fields. }
  split; [reflexivity|]. split; [reflexivity|].
  split; [reflexivity|]. split; [intros; split; reflexivity|].
  assert (A : forall st p,
             fst (subprocess_run "tc qdisc show dev eth1" (kernel st))
             = inr p ->
             exists reply,
               fst (get_current_policy st) = inr reply
               /\ reply_tc_status reply = stdout p
               /\ reply_current_policy reply = current_policy st).
  { intros st p E. eexists.
    split; [exact (get_current_policy_finished st p E)|].
    split; reflexivity. }
  split; [|split; [|split; [|split; [exact (fun _ _ st => Q _)|
                                     split; [exact A|
                                             exact (fun _ _ _ => A _)]]]]].
  - intros policy_name st.
    change "tc qdisc del dev eth1 root 2>/dev/null || true"
      with (clear_command (interface_arg None)).
    destruct (apply_exit_events _ _ _ _ _
                (apply_policy_exits policy_name None st))
      as [N|[N|(policy & compiled & events & stopped & _ & N & _)]];
      now rewrite N.
  - intros st. unfold clear_policy_endpoint.
    rewrite bind_clear_shaping, bind_set_current_policy. simpl snd.
    apply new_events_app. rewrite history_recorded. apply history_ran.
  - intros st. split; [apply Q|].
    intros reply E. rewrite get_current_policy_spec in E. simpl in E.
    destruct (cmd_output _); [|discriminate]. now injection E as <-.
Qed.

End InterfaceClaims.

(** ** Runs in the laboratory *)

(** C1, counterexample.  The record says Active("slow_link"); applying
    "tiers", whose second class is rejected by the kernel, fails at the
    add-class for 1:11, and the record still says Active("slow_link"),
    not Inactive. *)
Lemma failed_apply_not_inactive :
  machine_state (current_policy (slow_link_active reject_bogus))
  = Active "slow_link"
  /\ fst (@apply_policy faulty_lab "tiers" (Some "eth1")
                        (slow_link_active reject_bogus))
     = inr (failed "RTNETLINK answers: Invalid argument" bogus_line)
  /\ machine_state
       (current_policy
          (snd (@apply_policy faulty_lab "tiers" (Some "eth1")
                              (slow_link_active reject_bogus))))
     = Active "slow_link"
  /\ machine_state
       (current_policy
          (snd (@apply_policy faulty_lab "tiers" (Some "eth1")
                              (slow_link_active reject_bogus))))
     <> Inactive.
Proof.
  repeat split; try reflexivity. vm_compute. discriminate.
Qed.

Lemma failed_apply_keeps_active_policy_witness :
  machine_state
    (current_policy
       (snd (@apply_policy faulty_lab "tiers" (Some "eth1")
                           (slow_link_active reject_bogus))))
  = Active "slow_link".
Proof.
  exact (proj1 (@failed_apply_keeps_active_policy faulty_lab "tiers"
                  (Some "eth1") (slow_link_active reject_bogus) "slow_link"
                  eq_refl eq_refl)).
Defined.

(** C2, counterexample.  The record says Active("slow_link") with the
    descriptor of the policy file, and the kernel now refuses netem.
    Applying "slow_link" again fails at its one command; the kernel has
    been cleared, and the record still names the policy that failed, with
    its descriptor, as active. *)
Lemma failed_reapply_still_recorded_active :
  py_getitem lab_catalog "slow_link" = inr (JObj slow_link_descriptor)
  /\ succeeded
       (fst (@apply_policy (lab_with reject_netem) "slow_link" (Some "eth1")
               (slow_link_active reject_netem)))
     = false
  /\ kernel (snd (@apply_policy (lab_with reject_netem) "slow_link"
                    (Some "eth1") (slow_link_active reject_netem)))
     = None
  /\ name (current_policy
             (snd (@apply_policy (lab_with reject_netem) "slow_link"
                     (Some "eth1") (slow_link_active reject_netem))))
     = "slow_link"
  /\ status (current_policy
               (snd (@apply_policy (lab_with reject_netem) "slow_link"
                       (Some "eth1") (slow_link_active reject_netem))))
     = active
  /\ config (current_policy
               (snd (@apply_policy (lab_with reject_netem) "slow_link"
                       (Some "eth1") (slow_link_active reject_netem))))
     = Some (JObj slow_link_descriptor).
Proof. repeat split. Qed.

Lemma failed_apply_leaves_record_witness :
  fst (@apply_policy lab "missing_policy" (Some "eth1")
                     (slow_link_active never))
  = inr (not_found "missing_policy")
  /\ name (current_policy
             (snd (@apply_policy lab "missing_policy" (Some "eth1")
                                 (slow_link_active never))))
     = "slow_link"
  /\ status (current_policy
               (snd (@apply_policy lab "missing_policy" (Some "eth1")
                                   (slow_link_active never))))
     = active.
Proof.
  destruct (@failed_apply_leaves_record lab "missing_policy" (Some "eth1")
              (slow_link_active never) eq_refl) as (N & S & _).
  split; [reflexivity|]. split; [exact N | exact S].
Defined.

(** C3, counterexample.  eth1 carries a netem root discipline.  Applying
    a name that is not in the policy file, or the entry "off" whose type
    is not recognised, fails before any command of a policy is built, yet
    the clear command was run and the root discipline is gone. *)
Lemma unknown_policy_clears_interface :
  kernel (slow_link_active never) = Some netem_line
  /\ fst (@apply_policy lab "missing_policy" (Some "eth1")
                        (slow_link_active never))
     = inr (not_found "missing_policy")
  /\ commands_of
       (new_events (slow_link_active never)
          (snd (@apply_policy lab "missing_policy" (Some "eth1")
                              (slow_link_active never))))
     = ["tc qdisc del dev eth1 root 2>/dev/null || true"]
  /\ kernel (snd (@apply_policy lab "missing_policy" (Some "eth1")
                                (slow_link_active never)))
     = None
  /\ fst (@apply_policy lab "off" (Some "eth1") (slow_link_active never))
     = inr (unknown_type "Unknown policy type: none")
  /\ kernel (snd (@apply_policy lab "off" (Some "eth1")
                                (slow_link_active never)))
     = None.
Proof. repeat split. Qed.

Lemma compile_failure_runs_only_the_clear_witness :
  commands_of
    (new_events (slow_link_active never)
       (snd (@apply_policy lab "off" (Some "eth1") (slow_link_active never))))
  = ["tc qdisc del dev eth1 root 2>/dev/null || true"].
Proof.
  destruct (@compile_failure_runs_only_the_clear lab "off" (Some "eth1")
              (slow_link_active never)
              (unknown_type "Unknown policy type: none")
              eq_refl eq_refl eq_refl) as (_ & _ & C & _).
  exact C.
Defined.

(** C5, counterexample.  "none" is one of the kinds of the
    specification, and a descriptor of that type does not compile: it
    gets the unknown-type error, so applying the entry "off" of the
    policy file fails. *)
Lemma compile_none_unknown_type :
  In "none" spec_kinds
  /\ @compile lab (JObj [("type", JStr "none")]) "eth1"
     = inr (UnknownType "Unknown policy type: none")
  /\ py_getitem lab_catalog "off" = inr (JObj [("type", JStr "none")])
  /\ fst (@apply_policy lab "off" (Some "eth1")
                        (lab_state lab None initial_policy))
     = inr (unknown_type "Unknown policy type: none").
Proof. repeat split. simpl. tauto. Qed.

Lemma compile_unknown_type_iff_witness :
  (forall error,
      @compile lab (JObj slow_link_descriptor) "eth1"
      <> inr (UnknownType error))
  /\ @compile lab (JObj [("type", JStr "tbf")]) "eth1"
     = inr (UnknownType "Unknown policy type: tbf").
Proof.
  split.
  - apply (proj1 (@compile_unknown_type_iff lab slow_link_descriptor
                    "netem" "eth1" eq_refl)).
    simpl. tauto.
  - apply (proj2 (@compile_unknown_type_iff lab [("type", JStr "tbf")]
                    "tbf" "eth1" eq_refl)).
    intros [E|[E|[E|[]]]]; discriminate.
Defined.


Lemma success_is_recorded_witness :
  current_policy
    (snd (@apply_policy lab "slow_link" (Some "eth1")
                        (lab_state lab None initial_policy)))
  = active_record "slow_link" (JObj slow_link_descriptor)
  /\ config
       (current_policy
          (snd (@apply_policy lab "slow_link" (Some "eth1")
                              (lab_state lab None initial_policy))))
     = Some (JObj slow_link_descriptor)
  /\ current_policy
       (snd (@clear_policy_endpoint lab None (slow_link_active never)))
     = initial_policy
  /\ config
       (current_policy
          (snd (@clear_policy_endpoint lab None (slow_link_active never))))
     = None.
Proof.
  destruct (@success_is_recorded lab) as (A & C).
  destruct (A "slow_link" (Some "eth1") (lab_state lab None initial_policy)
              eq_refl)
    as (descriptor & R & (_ & _ & F) & _ & [[N _]|(_ & p & L & G)] & _).
  - discriminate N.
  - assert (D : descriptor = JObj slow_link_descriptor).
    { injection L as <-. simpl in G. now injection G as <-. }
    split; [rewrite R; now f_equal|].
    split; [rewrite F; now f_equal|].
    destruct (C None (slow_link_active never))
      as (_ & I & (_ & _ & N) & _).
    split; [exact I|exact N].
Defined.

(** C10, counterexample.  On a host where the tc process does not finish
    within the 10 seconds it is given, [run_command] keeps a dict with no
    "output" key, and the current-policy query, having run
    "tc qdisc show dev eth1", raises KeyError on that key: it reports
    neither the state of eth1 nor the record. *)
Lemma stalled_query_reports_nothing :
  fst (@subprocess_run stalled_lab "tc qdisc show dev eth1" None)
  = inl "timed out after 10 seconds"
  /\ fst (@get_current_policy stalled_lab
            (lab_state stalled_lab None initial_policy))
     = inl (KeyError "output")
  /\ commands_of
       (new_events (lab_state stalled_lab None initial_policy)
          (snd (@get_current_policy stalled_lab
                  (lab_state stalled_lab None initial_policy))))
     = ["tc qdisc show dev eth1"]
  /\ succeeded
       (fst (@apply_policy stalled_lab "no_shaping" (Some "eth0")
                           (lab_state stalled_lab None initial_policy)))
     = true
  /\ fst (@get_current_policy stalled_lab
            (snd (@apply_policy stalled_lab "no_shaping" (Some "eth0")
                    (lab_state stalled_lab None initial_policy))))
     = inl (KeyError "output").
Proof. repeat split. Qed.

Lemma default_interface_is_eth1_witness :
  commands_of
    (new_events
       (snd (@apply_policy lab "slow_link" (Some "eth0")
                           (slow_link_active never)))
       (snd (@get_current_policy lab
               (snd (@apply_policy lab "slow_link" (Some "eth0")
                                   (slow_link_active never))))))
  = ["tc qdisc show dev eth1"]
  /\ exists reply,
      fst (@get_current_policy lab
             (snd (@apply_policy lab "slow_link" (Some "eth0")
                                 (slow_link_active never))))
      = inr reply
      /\ reply_tc_status reply = netem_line
      /\ reply_current_policy reply
         = current_policy
             (snd (@apply_policy lab "slow_link" (Some "eth0")
                                 (slow_link_active never))).
Proof.
  destruct (@default_interface_is_eth1 lab)
    as (_ & _ & _ & _ & _ & _ & _ & Q & _ & R).
  split; [exact (Q "slow_link" "eth0" (slow_link_active never))|].
  exact (R "slow_link" "eth0" (slow_link_active never)
           {| returncode := 0; stdout := netem_line;
              stderr := EmptyString |} eq_refl).
Defined.

(** The scenarios of the specification, run in the laboratory. *)

Example slow_link_scenario :
  @apply_policy lab "slow_link" (Some "eth1")
                (lab_state lab None initial_policy)
  = (inr (applied "slow_link" None (Some netem_line) None),
     @Build_state lab
       (Some netem_line)
       (active_record "slow_link" (JObj slow_link_descriptor))
       [ Ran "tc qdisc del dev eth1 root 2>/dev/null || true"
             (result_dict (exit_ok EmptyString));
         OpenedPolicies;
         Ran netem_line (result_dict (exit_ok EmptyString)) ]).
Proof. reflexivity. Qed.

Example cake_features_in_order :
  @compile lab (JObj [("type", JStr "cake"); ("bandwidth", JStr "50mbit");
                      ("rtt", JStr "20ms");
                      ("features", JList [JStr "nat"; JStr "wash"])])
           "eth1"
  = inr (OneCommand
           ("tc qdisc add dev eth1 root cake bandwidth 50mbit"
              ++ " rtt 20ms nat wash")).
Proof. reflexivity. Qed.

Example jitter_without_delay :
  @compile lab (JObj [("type", JStr "netem"); ("rate", JStr "1mbit");
                      ("jitter", JStr "5ms")])
           "eth1"
  = inr (OneCommand "tc qdisc add dev eth1 root netem 5ms rate 1mbit").
Proof. reflexivity. Qed.

Example class_without_rate :
  @compile lab (JObj [("type", JStr "htb");
                      ("total_bandwidth", JStr "100mbit");
                      ("classes", JList [JObj [("ceil", JStr "1mbit")]])])
           "eth1"
  = inl (KeyError "rate").
Proof. reflexivity. Qed.

Example no_shaping_without_policy_file :
  fst (@apply_policy bare_lab "no_shaping" None
                     (lab_state bare_lab None initial_policy))
  = inr (applied "no_shaping" None None (Some "No shaping applied"))
  /\ fst (@apply_policy bare_lab "slow_link" None
                        (lab_state bare_lab None initial_policy))
     = inl (OSError "No such file or directory: '/app/policies.json'").
Proof. split; reflexivity. Qed.

Example policy_name_required :
  fst (@apply_policy_endpoint lab (Some empty_request)
                              (lab_state lab None initial_policy))
  = inr ({| r_success := false; r_policy := None; r_message := None;
            r_type := None; r_error := Some "Policy name required";
            r_command := None |}, 400).
Proof. reflexivity. Qed.

(** ** More on the compiler *)

Lemma append_empty_r (s : string) : s ++ EmptyString = s.
Proof. induction s as [|c s IH]; simpl; [reflexivity | now rewrite IH]. Qed.

Lemma join_strs_strings (sep : string) (flags : list string) :
  join_strs sep (map JStr flags) = inr (String.concat sep flags).
Proof.
  induction flags as [|flag rest IH]; [reflexivity|].
  simpl map. cbn [join_strs]. rewrite IH.
  destruct rest; reflexivity.
Qed.

Lemma join_strs_not_string (sep : string) (parts : list json) :
  (exists part, In part parts /\ forall s, part <> JStr s) ->
  join_strs sep parts = inl TypeError.
Proof.
  induction parts as [|part rest IH]; intros (bad & Hin & Hbad).
  - destruct Hin.
  - destruct part as [t|s|l|m]; try reflexivity.
    destruct Hin as [<-|Hin]; [now destruct (Hbad s)|].
    cbn [join_strs]. destruct rest as [|next rest']; [destruct Hin|].
    rewrite IH; [reflexivity|]. now exists bad.
Qed.

Section CakeFacts.
Context `{H : Host}.

(** X1.  A cake descriptor with a bandwidth, and whose features, when
    given, are a list of strings, compiles to one command: the bandwidth,
    then the rtt when there is one, then the feature flags in the order
    given, separated by single spaces. *)
Theorem compile_cake_command (d : dict) (interface : string)
  (bandwidth : json) (flags : option (list string)) :
  dict_get "type" d = Some (JStr "cake") ->
  dict_get "bandwidth" d = Some bandwidth ->
  dict_get "features" d
  = option_map (fun names => JList (map JStr names)) flags ->
  compile (JObj d) interface
  = inr (OneCommand
           ("tc qdisc add dev " ++ interface ++ " root cake bandwidth "
              ++ py_format bandwidth
              ++ match dict_get "rtt" d with
                 | Some rtt => " rtt " ++ py_format rtt
                 | None => EmptyString
                 end
              ++ match flags with
                 | Some names => " " ++ String.concat " " names
                 | None => EmptyString
                 end)).
Proof.
  intros Ht Hb Hf. unfold compile. simpl py_getitem. rewrite Ht.
  cbn [and_then json_eq_str]. simpl String.eqb. cbv iota.
  unfold cake_command. simpl py_getitem. simpl py_in. unfold dict_has.
  rewrite Hb, Hf. cbn [and_then].
  destruct (dict_get "rtt" d) as [rtt|]; destruct flags as [names|];
    cbn [and_then option_map py_join py_iter];
    rewrite ?join_strs_strings; cbn [and_then];
    rewrite ?append_assoc, ?append_empty_r; reflexivity.
Qed.

(** X2.  What makes the cake branch raise: a descriptor without
    bandwidth raises KeyError('bandwidth'); with a bandwidth, features
    that are a number, a boolean or null, or a list holding anything but
    strings, raise TypeError. *)
Theorem compile_cake_errors (d : dict) (interface : string) :
  dict_get "type" d = Some (JStr "cake") ->
  (dict_get "bandwidth" d = None ->
   compile (JObj d) interface = inl (KeyError "bandwidth"))
  /\ (forall bandwidth features,
         dict_get "bandwidth" d = Some bandwidth ->
         dict_get "features" d = Some features ->
         (exists text, features = JScalar text)
         \/ (exists items part,
                features = JList items
                /\ In part items /\ forall s, part <> JStr s) ->
         compile (JObj d) interface = inl TypeError).
Proof.
  intros Ht. split.
  - intros Hb. unfold compile. simpl py_getitem. rewrite Ht.
    cbn [and_then json_eq_str]. simpl String.eqb. cbv iota.
    unfold cake_command. simpl py_getitem. now rewrite Hb.
  - intros bandwidth features Hb Hf Bad.
    unfold compile. simpl py_getitem. rewrite Ht.
    cbn [and_then json_eq_str]. simpl String.eqb. cbv iota.
    unfold cake_command. simpl py_getitem. simpl py_in. unfold dict_has.
    rewrite Hb, Hf. cbn [and_then].
    assert (J : py_join " " features = inl TypeError).
    { destruct Bad as [(text & ->)|(items & part & -> & Hin & Hbad)].
      - reflexivity.
      - unfold py_join. simpl py_iter.
        apply join_strs_not_string. now exists part. }
    destruct (dict_get "rtt" d); cbn [and_then]; now rewrite J.
Qed.

End CakeFacts.

Section HtbFacts.
Context `{H : Host}.

Lemma class_commands_raises interface items :
  forall i,
    classes_of items = None ->
    class_commands interface i items = inl (KeyError "rate")
    \/ class_commands interface i items = inl TypeError.
Proof.
  induction items as [|class_cfg rest IH]; intros i E; [discriminate|].
  simpl in E. cbn [class_commands].
  destruct class_cfg as [t|s|l|d]; try (right; reflexivity).
  simpl class_view in E. simpl py_getitem.
  destruct (dict_get "rate" d) as [rate|]; [|left; reflexivity].
  cbn [and_then py_get].
  assert (R : classes_of rest = None) by (destruct (classes_of rest); easy).
  destruct (IH (S i) R) as [-> | ->];
    destruct (dict_get "ceil" d); cbn [and_then]; auto.
Qed.

(** X3.  What makes the htb branch raise.  Without total_bandwidth it
    raises KeyError('total_bandwidth'); with it but without classes,
    KeyError('classes'); with both and classes a list, it raises exactly
    when some class is not a dict with a rate, and then with
    KeyError('rate') or TypeError. *)
Theorem compile_htb_errors (d : dict) (interface : string) :
  dict_get "type" d = Some (JStr "htb") ->
  (dict_get "total_bandwidth" d = None ->
   compile (JObj d) interface = inl (KeyError "total_bandwidth"))
  /\ (forall total,
         dict_get "total_bandwidth" d = Some total ->
         dict_get "classes" d = None ->
         compile (JObj d) interface = inl (KeyError "classes"))
  /\ (forall total items,
         dict_get "total_bandwidth" d = Some total ->
         dict_get "classes" d = Some (JList items) ->
         ((exists e, compile (JObj d) interface = inl e)
          <-> classes_of items = None)
         /\ (forall e,
                compile (JObj d) interface = inl e ->
                e = KeyError "rate" \/ e = TypeError)).
Proof.
  intros Ht.
  assert (C : compile (JObj d) interface
              = and_then (htb_commands (JObj d) interface)
                         (fun commands => inr (CommandList commands))).
  { unfold compile. simpl py_getitem. now rewrite Ht. }
  rewrite C. unfold htb_commands. simpl py_getitem.
  split; [|split].
  - now intros ->.
  - now intros total -> ->.
  - intros total items -> ->. cbn [and_then py_iter].
    destruct (classes_of items) as [classes|] eqn:E.
    + rewrite (class_commands_spec interface items classes 10 E).
      cbn [and_then]. split.
      * split; [intros (e & X); discriminate | discriminate].
      * intros e X. discriminate.
    + destruct (class_commands_raises interface items 10 E) as [R|R];
        rewrite R; cbn [and_then]; split.
      * split; [reflexivity | eexists; reflexivity].
      * intros e X. injection X as <-. now left.
      * split; [reflexivity | eexists; reflexivity].
      * intros e X. injection X as <-. now right.
Qed.

End HtbFacts.

Lemma compile_cake_command_witness :
  @compile lab (JObj home_descriptor) "eth1"
  = inr (OneCommand
           ("tc qdisc add dev eth1 root cake bandwidth 50mbit"
              ++ " rtt 20ms nat wash")).
Proof.
  exact (@compile_cake_command lab home_descriptor "eth1" (JStr "50mbit")
           (Some ["nat"; "wash"]) eq_refl eq_refl eq_refl).
Defined.

Lemma compile_cake_errors_witness :
  @compile lab (JObj [("type", JStr "cake"); ("rtt", JStr "20ms")]) "eth1"
  = inl (KeyError "bandwidth")
  /\ @compile lab (JObj [("type", JStr "cake"); ("bandwidth", JStr "1mbit");
                         ("features", JList [JStr "nat"; JScalar "5"])])
              "eth1"
     = inl TypeError.
Proof.
  split.
  - exact (proj1 (@compile_cake_errors lab
                    [("type", JStr "cake"); ("rtt", JStr "20ms")] "eth1"
                    eq_refl) eq_refl).
  - apply (proj2 (@compile_cake_errors lab
                    [("type", JStr "cake"); ("bandwidth", JStr "1mbit");
                     ("features", JList [JStr "nat"; JScalar "5"])] "eth1"
                    eq_refl) (JStr "1mbit")
                 (JList [JStr "nat"; JScalar "5"]) eq_refl eq_refl).
    right. exists [JStr "nat"; JScalar "5"], (JScalar "5").
    split; [reflexivity|]. split; [simpl; tauto | discriminate].
Defined.

Lemma compile_htb_errors_witness :
  @compile lab (JObj [("type", JStr "htb");
                      ("total_bandwidth", JStr "100mbit");
                      ("classes", JList [JObj [("rate", JStr "1mbit")];
                                         JObj [("ceil", JStr "2mbit")]])])
           "eth1"
  = inl (KeyError "rate").
Proof.
  destruct (@compile_htb_errors lab
              [("type", JStr "htb"); ("total_bandwidth", JStr "100mbit");
               ("classes", JList [JObj [("rate", JStr "1mbit")];
                                  JObj [("ceil", JStr "2mbit")]])]
              "eth1" eq_refl) as (_ & _ & A).
  destruct (A (JStr "100mbit")
              [JObj [("rate", JStr "1mbit")]; JObj [("ceil", JStr "2mbit")]]
              eq_refl eq_refl) as ((_ & R) & K).
  destruct (R eq_refl) as (e & E).
  destruct (K e E) as [-> | ->]; [exact E|].
  discriminate E.
Defined.

(** ** More on [apply_policy] *)


Lemma loop_run_prefix commands events stopped :
  loop_run commands events stopped ->
  exists n, commands_of events = firstn n commands.
Proof.
  induction 1 as [|c rest r Hr|c rest r events stopped Hr L (n & IH)].
  - now exists 0.
  - now exists 1.
  - exists (S n). simpl. now rewrite IH.
Qed.


Section ApplyFacts.
Context `{H : Host}.

Lemma prepare_raised policy_name interface w e :
  prepare policy_name interface w = inl e ->
  load_policies w = inl e
  \/ exists policies,
      load_policies w = inr policies
      /\ (py_in policy_name policies = inl e
          \/ py_getitem policies policy_name = inl e
          \/ exists policy,
              py_getitem policies policy_name = inr policy
              /\ compile policy interface = inl e).
Proof.
  unfold prepare. intros E.
  destruct (load_policies w) as [e0|policies] eqn:L; cbn [and_then] in E.
  { left. now injection E as <-. }
  right. exists policies. split; trivial.
  destruct (py_in policy_name policies) as [e0|known] eqn:K;
    cbn [and_then] in E.
  { left. now injection E as <-. }
  destruct known; cbn [negb] in E; [|discriminate].
  destruct (py_getitem policies policy_name) as [e0|policy] eqn:G;
    cbn [and_then] in E.
  { right; left. now injection E as <-. }
  right; right. exists policy. split; trivial.
  destruct (compile policy interface) as [e0|compiled] eqn:C;
    cbn [and_then] in E; [now injection E as <- | discriminate].
Qed.

(** X4.  When [apply_policy] lets an exception escape, no command of the
    policy has been run: the name is not "no_shaping", the call has done
    the clear and opened the policy file and nothing else, the kernel is
    as the clear left it, the record is untouched, and the exception
    comes from loading the file, from looking the name up or from
    building the commands. *)
Theorem apply_policy_raises_before_commands (policy_name : string)
  (interface : option string) (st : state) (e : exn) :
  fst (apply_policy policy_name interface st) = inl e ->
  policy_name <> "no_shaping"
  /\ new_events st (snd (apply_policy policy_name interface st))
     = [Ran (clear_command (interface_arg interface))
            (result_at (clear_command (interface_arg interface)) st);
        OpenedPolicies]
  /\ kernel (snd (apply_policy policy_name interface st))
     = snd (subprocess_run (clear_command (interface_arg interface))
                           (kernel st))
  /\ current_policy (snd (apply_policy policy_name interface st))
     = current_policy st
  /\ (load_policies
        (snd (subprocess_run (clear_command (interface_arg interface))
                             (kernel st)))
      = inl e
      \/ exists policies,
          load_policies
            (snd (subprocess_run (clear_command (interface_arg interface))
                                 (kernel st)))
          = inr policies
          /\ (py_in policy_name policies = inl e
              \/ py_getitem policies policy_name = inl e
              \/ exists policy,
                  py_getitem policies policy_name = inr policy
                  /\ compile policy (interface_arg interface) = inl e)).
Proof.
  intros E.
  pose proof (apply_policy_exits policy_name interface st) as X.
  rewrite E in X.
  destruct (ran_fields (clear_command (interface_arg interface)) st)
    as (K & P & Hh).
  inversion X as [| e' NE R | | | | | |]; subst.
  split; [exact NE|]. split; [|split; [|split]].
  - apply new_events_app. now rewrite history_opened, Hh, <- app_assoc.
  - exact K.
  - exact P.
  - rewrite <- K. now apply prepare_raised.
Qed.

End ApplyFacts.

Section SuccessFacts.
Context `{H : Host}.

(** A plan with commands comes from a descriptor of a compiled type. *)
Lemma compile_plan_kind policy interface compiled :
  compile policy interface = inr compiled ->
  (exists error, compiled = UnknownType error)
  \/ (plan_commands compiled <> []
      /\ exists kind,
          In kind compiled_kinds
          /\ py_getitem policy "type" = inr (JStr kind)).
Proof.
  unfold compile. intros E.
  destruct (py_getitem policy "type") as [e|type] eqn:T;
    cbn [and_then] in E; [discriminate|].
  destruct (json_eq_str type "cake") eqn:Kc.
  { right. destruct type as [|s| |]; try discriminate.
    apply String.eqb_eq in Kc. subst s.
    destruct (cake_command policy interface); cbn [and_then] in E;
      [discriminate|].
    injection E as <-. split; [discriminate|].
    exists "cake". split; [simpl; tauto | reflexivity]. }
  destruct (json_eq_str type "netem") eqn:Kn.
  { right. destruct type as [|s| |]; try discriminate.
    apply String.eqb_eq in Kn. subst s.
    destruct (netem_command policy interface); cbn [and_then] in E;
      [discriminate|].
    injection E as <-. split; [discriminate|].
    exists "netem". split; [simpl; tauto | reflexivity]. }
  destruct (json_eq_str type "htb") eqn:Kh.
  { right. destruct type as [|s| |]; try discriminate.
    apply String.eqb_eq in Kh. subst s.
    unfold htb_commands in E.
    destruct (py_getitem policy "total_bandwidth"); cbn [and_then] in E;
      [discriminate|].
    destruct (py_getitem policy "classes"); cbn [and_then] in E;
      [discriminate|].
    destruct (py_iter j0); cbn [and_then] in E; [discriminate|].
    destruct (class_commands interface 10 l); cbn [and_then] in E;
      [discriminate|].
    injection E as <-. split; [discriminate|].
    exists "htb". split; [simpl; tauto | reflexivity]. }
  left. injection E as <-. eexists; reflexivity.
Qed.



End SuccessFacts.

Section ReplyFacts.
Context `{H : Host}.



End ReplyFacts.

(** ** The interface a call acts on *)

Lemma prefix_empty (s : string) : String.prefix EmptyString s = true.
Proof. now destruct s. Qed.

Lemma prefix_app (p s : string) : String.prefix p (p ++ s) = true.
Proof.
  induction p as [|c p IH]; simpl; [apply prefix_empty|].
  destruct (ascii_dec c c) as [_|N]; [exact IH | now destruct N].
Qed.

Lemma prefix_app_r (p s t : string) :
  String.prefix p s = true -> String.prefix p (s ++ t) = true.
Proof.
  revert s. induction p as [|c p IH]; intros s E.
  - apply prefix_empty.
  - destruct s as [|c' s]; [discriminate|]. simpl in *.
    destruct (ascii_dec c c'); [now apply IH | discriminate].
Qed.

Lemma targets_add_qdisc interface rest :
  targets interface ("tc qdisc add dev " ++ interface ++ " " ++ rest) = true.
Proof.
  unfold targets.
  replace ("tc qdisc add dev " ++ interface ++ " " ++ rest)
    with (("tc qdisc add dev " ++ interface ++ " ") ++ rest)
    by now rewrite !append_assoc.
  rewrite (prefix_app ("tc qdisc add dev " ++ interface ++ " ")).
  now rewrite orb_true_r.
Qed.

Lemma targets_add_class interface rest :
  targets interface ("tc class add dev " ++ interface ++ " " ++ rest) = true.
Proof.
  unfold targets.
  replace ("tc class add dev " ++ interface ++ " " ++ rest)
    with (("tc class add dev " ++ interface ++ " ") ++ rest)
    by now rewrite !append_assoc.
  rewrite (prefix_app ("tc class add dev " ++ interface ++ " ")).
  now rewrite !orb_true_r.
Qed.

Lemma targets_clear interface :
  targets interface (clear_command interface) = true.
Proof.
  unfold targets, clear_command.
  replace ("tc qdisc del dev " ++ interface ++ " root 2>/dev/null || true")
    with (("tc qdisc del dev " ++ interface ++ " ")
            ++ "root 2>/dev/null || true")
    by now rewrite !append_assoc.
  now rewrite (prefix_app ("tc qdisc del dev " ++ interface ++ " ")).
Qed.

Lemma targets_app interface cmd more :
  targets interface cmd = true -> targets interface (cmd ++ more) = true.
Proof.
  unfold targets. intros T.
  apply orb_true_iff in T as [T|T]; [apply orb_true_iff in T as [T|T]|];
    rewrite (prefix_app_r _ _ more T); now rewrite ?orb_true_r.
Qed.

Lemma inr_eq {A B : Type} (a b : B) : @inr A B a = inr b -> a = b.
Proof. now intros [= ->]. Qed.

Section TargetFacts.
Context `{H : Host}.

Lemma class_commands_target interface classes :
  forall i commands,
    class_commands interface i classes = inr commands ->
    forallb (targets interface) commands = true.
Proof.
  induction classes as [|class_cfg rest IH]; intros i commands E.
  - injection E as <-. reflexivity.
  - cbn [class_commands] in E.
    destruct (py_getitem class_cfg "rate") as [e|rate];
      cbn [and_then] in E; [discriminate|].
    destruct (py_get class_cfg "ceil" rate) as [e|ceil];
      cbn [and_then] in E; [discriminate|].
    destruct (class_commands interface (S i) rest) as [e|more] eqn:R;
      cbn [and_then] in E; [discriminate|].
    injection E as <-. cbn [forallb].
    rewrite (IH (S i) more R), andb_true_r.
    apply andb_true_iff. split.
    + exact (targets_add_class interface
               ("parent 1:1 classid " ++ ("1:" ++ str_of_nat i)
                  ++ " htb rate " ++ py_format rate ++ " ceil "
                  ++ py_format ceil)).
    + exact (targets_add_qdisc interface
               ("parent " ++ ("1:" ++ str_of_nat i) ++ " handle "
                  ++ str_of_nat i ++ ": fq_codel")).
Qed.

Lemma compile_targets policy interface compiled :
  compile policy interface = inr compiled ->
  forallb (targets interface) (plan_commands compiled) = true.
Proof.
  unfold compile. intros E.
  destruct (py_getitem policy "type") as [e|type];
    cbn [and_then] in E; [discriminate|].
  destruct (json_eq_str type "cake").
  { unfold cake_command in E.
    destruct (py_getitem policy "bandwidth") as [e|bandwidth];
      cbn [and_then] in E; [discriminate|].
    assert (T : targets interface
                  ("tc qdisc add dev " ++ interface
                     ++ " root cake bandwidth " ++ py_format bandwidth)
                = true)
      by exact (targets_add_qdisc interface
                  ("root cake bandwidth " ++ py_format bandwidth)).
    destruct (py_in "rtt" policy) as [e|[|]]; cbn [and_then] in E;
      try discriminate;
      [destruct (py_getitem policy "rtt") as [e|rtt];
       cbn [and_then] in E; [discriminate|]
      |];
      (destruct (py_in "features" policy) as [e|[|]]; cbn [and_then] in E;
       try discriminate;
       [destruct (py_getitem policy "features") as [e|features];
        cbn [and_then] in E; [discriminate|];
        destruct (py_join " " features) as [e|flags];
        cbn [and_then] in E; [discriminate|]
       |]);
      apply inr_eq in E; subst compiled; cbn [plan_commands forallb];
      rewrite andb_true_r;
      repeat (first [exact T | apply targets_app]). }
  destruct (json_eq_str type "netem").
  { unfold netem_command, append_if_present in E.
    assert (T : targets interface
                  ("tc qdisc add dev " ++ interface ++ " root netem") = true)
      by exact (targets_add_qdisc interface "root netem").
    repeat
      match type of E with
      | context [py_in ?k policy] =>
          destruct (py_in k policy) as [?|[|]]; cbn [and_then] in E;
          try discriminate
      | context [py_getitem policy ?k] =>
          destruct (py_getitem policy k) as [?|?]; cbn [and_then] in E;
          try discriminate
      end;
      apply inr_eq in E; subst compiled; cbn [plan_commands forallb];
      rewrite andb_true_r;
      repeat (first [exact T | apply targets_app]). }
  destruct (json_eq_str type "htb").
  { unfold htb_commands in E.
    destruct (py_getitem policy "total_bandwidth") as [e|total];
      cbn [and_then] in E; [discriminate|].
    destruct (py_getitem policy "classes") as [e|classes_value];
      cbn [and_then] in E; [discriminate|].
    destruct (py_iter classes_value) as [e|classes];
      cbn [and_then] in E; [discriminate|].
    destruct (class_commands interface 10 classes) as [e|per_class] eqn:R;
      cbn [and_then] in E; [discriminate|].
    injection E as <-. cbn [plan_commands forallb].
    rewrite (class_commands_target interface classes 10 per_class R),
      andb_true_r.
    apply andb_true_iff. split.
    - exact (targets_add_qdisc interface "root handle 1: htb default 30").
    - exact (targets_add_class interface
               ("parent 1: classid 1:1 htb rate " ++ py_format total)). }
  injection E as <-. reflexivity.
Qed.

End TargetFacts.

Lemma forallb_firstn {A} (f : A -> bool) (l : list A) :
  forall n, forallb f l = true -> forallb f (firstn n l) = true.
Proof.
  induction l as [|x l IH]; intros [|n] E; simpl in *; trivial.
  apply andb_true_iff in E as (Ex & El). now rewrite Ex, (IH n El).
Qed.

Section InterfaceFacts.
Context `{H : Host}.

(** X7.  Every command a call of [apply_policy] runs is a tc command on
    the interface of the call: it starts with "tc qdisc del dev", "tc
    qdisc add dev" or "tc class add dev", then the interface name and a
    space.  No command is run for another interface name. *)
Theorem apply_policy_only_targets_interface (policy_name : string)
  (interface : option string) (st : state) :
  forallb (targets (interface_arg interface))
          (commands_of
             (new_events st (snd (apply_policy policy_name interface st))))
  = true.
Proof.
  destruct (apply_exit_events _ _ _ _ _
              (apply_policy_exits policy_name interface st))
    as [N|[N|(policy & compiled & events & stopped & P & N & L & _)]];
    rewrite N; cbn [commands_of forallb]; rewrite targets_clear;
    trivial.
  apply prepare_compiled in P as (policies & _ & _ & _ & C).
  destruct (loop_run_prefix _ _ _ L) as (n & ->).
  apply forallb_firstn. exact (compile_targets _ _ _ C).
Qed.

End InterfaceFacts.

(** ** The handlers *)

Section HandlerFacts.
Context `{H : Host}.

Lemma apply_policy_endpoint_named data policy_name st :
  req_policy data = Some policy_name ->
  policy_name <> EmptyString ->
  apply_policy_endpoint (Some data) st
  = (match fst (apply_policy policy_name (Some (get_interface data)) st) with
     | inr r => inr (r, if r_success r then 200 else 400)
     | inl e => inl e
     end,
     snd (apply_policy policy_name (Some (get_interface data)) st)).
Proof.
  intros E N. unfold apply_policy_endpoint. rewrite E.
  destruct policy_name as [|c rest]; [now destruct N|].
  unfold bind.
  destruct (apply_policy (String c rest) (Some (get_interface data)) st)
    as [[e|r] st']; reflexivity.
Qed.

(** X8.  The apply handler.  Without a JSON body it raises
    AttributeError; with a body whose policy is missing or the empty
    string it answers 400 "Policy name required".  In both cases nothing
    is run, not even the clear, and the state is untouched.  Otherwise
    it leaves the state [apply_policy] leaves and answers with the dict
    [apply_policy] returned, with status 200 exactly when that dict says
    success, and 400 when it does not. *)
Theorem apply_handler_status (data : request) (st : state) :
  apply_policy_endpoint None st = (inl AttributeError, st)
  /\ (req_policy data = None \/ req_policy data = Some EmptyString ->
      apply_policy_endpoint (Some data) st
      = (inr ({| r_success := false; r_policy := None; r_message := None;
                 r_type := None; r_error := Some "Policy name required";
                 r_command := None |}, 400), st))
  /\ (forall policy_name,
         req_policy data = Some policy_name ->
         policy_name <> EmptyString ->
         snd (apply_policy_endpoint (Some data) st)
         = snd (apply_policy policy_name (Some (get_interface data)) st)
         /\ (forall e,
                fst (apply_policy policy_name (Some (get_interface data)) st)
                = inl e ->
                fst (apply_policy_endpoint (Some data) st) = inl e)
         /\ (forall r,
                fst (apply_policy policy_name (Some (get_interface data)) st)
                = inr r ->
                fst (apply_policy_endpoint (Some data) st)
                = inr (r, if r_success r then 200 else 400)))
  /\ (forall r code,
         fst (apply_policy_endpoint (Some data) st) = inr (r, code) ->
         (code = 200 /\ r_success r = true)
         \/ (code = 400 /\ r_success r = false)).
Proof.
  split; [reflexivity|]. split; [|split].
  - unfold apply_policy_endpoint. now intros [-> | ->].
  - intros policy_name E N.
    rewrite (apply_policy_endpoint_named data policy_name st E N).
    simpl. split; [reflexivity|]. split.
    + now intros e ->.
    + now intros r ->.
  - intros r code E.
    destruct (req_policy data) as [[|c rest]|] eqn:Q.
    + unfold apply_policy_endpoint in E. rewrite Q in E.
      injection E as <- <-. now right.
    + rewrite (apply_policy_endpoint_named data (String c rest) st Q) in E
        by discriminate.
      simpl in E.
      destruct (fst (apply_policy (String c rest)
                                  (Some (get_interface data)) st))
        as [e|r']; [discriminate|].
      injection E as <- <-. destruct (r_success r'); auto.
    + unfold apply_policy_endpoint in E. rewrite Q in E.
      injection E as <- <-. now right.
Qed.

Lemma get_stats_spec interface st :
  get_stats interface st
  = (match cmd_output
             (result_at ("tc -s qdisc show dev "
                           ++ match interface with
                              | Some i => i
                              | None => "eth1"
                              end) st) with
     | Some output =>
         inr {| stats_interface := match interface with
                                   | Some i => i
                                   | None => "eth1"
                                   end;
                stats_text := output |}
     | None => inl (KeyError "output")
     end,
     ran ("tc -s qdisc show dev "
            ++ match interface with Some i => i | None => "eth1" end) st).
Proof.
  unfold get_stats. rewrite bind_run_command.
  now destruct (cmd_output _).
Qed.

(** X9.  The two query handlers.  [/stats] runs "tc -s qdisc show dev"
    on the interface of the query, eth1 when none is given, and
    [/policy/current] runs "tc qdisc show dev eth1"; each runs that one
    command and leaves the record alone.  When the process finishes,
    whatever its exit status, the answer carries its standard output;
    when running it raised (a timeout, say), the handler raises
    KeyError('output'). *)
Theorem query_handlers_report_stdout (interface : option string)
  (st : state) :
  let i := match interface with Some i => i | None => "eth1" end in
  (new_events st (snd (get_stats interface st))
   = [Ran ("tc -s qdisc show dev " ++ i)
          (result_at ("tc -s qdisc show dev " ++ i) st)]
   /\ current_policy (snd (get_stats interface st)) = current_policy st
   /\ fst (get_stats interface st)
      = match fst (subprocess_run ("tc -s qdisc show dev " ++ i)
                                  (kernel st)) with
        | inr p => inr {| stats_interface := i; stats_text := stdout p |}
        | inl _ => inl (KeyError "output")
        end)
  /\ (new_events st (snd (get_current_policy st))
      = [Ran "tc qdisc show dev eth1"
             (result_at "tc qdisc show dev eth1" st)]
      /\ current_policy (snd (get_current_policy st)) = current_policy st
      /\ fst (get_current_policy st)
         = match fst (subprocess_run "tc qdisc show dev eth1"
                                     (kernel st)) with
           | inr p => inr {| reply_current_policy := current_policy st;
                             reply_tc_status := stdout p |}
           | inl _ => inl (KeyError "output")
           end).
Proof.
  intros i. rewrite get_stats_spec, get_current_policy_spec. fold i.
  cbn [fst snd]. split; (split; [|split]).
  - apply new_events_app, history_ran.
  - apply ran_fields.
  - unfold result_at.
    destruct (fst (subprocess_run ("tc -s qdisc show dev " ++ i)
                                  (kernel st))); reflexivity.
  - apply new_events_app, history_ran.
  - apply ran_fields.
  - unfold result_at.
    destruct (fst (subprocess_run "tc qdisc show dev eth1" (kernel st)));
      reflexivity.
Qed.

End HandlerFacts.

Lemma dict_has_keys (key : string) (d : dict) :
  dict_has key d = true <-> In key (map fst d).
Proof.
  unfold dict_has. induction d as [|[k v] rest IH]; simpl.
  - split; [discriminate | contradiction].
  - destruct (String.eqb_spec k key) as [->|N].
    + split; auto.
    + rewrite IH. split; [now right | now intros [E|I]].
Qed.

Section CatalogFacts.
Context `{H : Host}.

Lemma list_policies_spec st :
  list_policies st
  = (try policies := load_policies (kernel st) in
     try keys := py_keys policies in
     inr {| reply_policies := keys; reply_details := policies |},
     opened st).
Proof.
  unfold list_policies. rewrite bind_open_policies.
  destruct (load_policies (kernel st)) as [e|policies]; [reflexivity|].
  cbv beta. rewrite (bind_eval (py_keys policies)).
  cbn [and_then]. now destruct (py_keys policies).
Qed.

Lemma compile_unknown_error policy interface error :
  compile policy interface = inr (UnknownType error) ->
  exists type, error = "Unknown policy type: " ++ py_format type.
Proof.
  unfold compile. intros E.
  destruct (py_getitem policy "type") as [e|type];
    cbn [and_then] in E; [discriminate|].
  destruct (json_eq_str type "cake").
  { destruct (cake_command policy interface); discriminate. }
  destruct (json_eq_str type "netem").
  { destruct (netem_command policy interface); discriminate. }
  destruct (json_eq_str type "htb").
  { destruct (htb_commands policy interface); discriminate. }
  exists type. now injection E as <-.
Qed.

(** X10.  The names [/policies] lists are the names [apply_policy]
    finds.  When the listing succeeds and the clear leaves the policy
    file as it is, applying a name other than "no_shaping" is answered
    "Policy '...' not found" exactly when the name is not in the list. *)
Theorem listed_policies_are_found (policy_name : string)
  (interface : option string) (st : state) (listing : policies_reply) :
  fst (list_policies st) = inr listing ->
  load_policies (kernel (ran (clear_command (interface_arg interface)) st))
  = load_policies (kernel st) ->
  policy_name <> "no_shaping" ->
  (fst (apply_policy policy_name interface st) = inr (not_found policy_name)
   <-> ~ In policy_name (reply_policies listing)).
Proof.
  intros Hl Hs NE.
  rewrite list_policies_spec in Hl. cbn [fst] in Hl.
  destruct (load_policies (kernel st)) as [e|policies] eqn:L;
    cbn [and_then] in Hl; [discriminate|].
  destruct policies as [t|s|l|d]; try discriminate.
  cbn [and_then py_keys] in Hl. injection Hl as <-. cbn [reply_policies].
  rewrite <- dict_has_keys.
  assert (P : prepare policy_name (interface_arg interface)
                (kernel (ran (clear_command (interface_arg interface)) st))
              = if negb (dict_has policy_name d) then inr None
                else
                  try policy := py_getitem (JObj d) policy_name in
                  try compiled := compile policy (interface_arg interface) in
                  inr (Some (policy, compiled))).
  { unfold prepare. rewrite Hs. reflexivity. }
  pose proof (apply_policy_exits policy_name interface st) as X.
  destruct (apply_policy policy_name interface st) as [out st'].
  cbn [fst snd] in *.
  destruct (dict_has policy_name d); cbn [negb] in P.
  - (* the name is listed *)
    split; [|intros Q; now destruct Q].
    intros Q. exfalso.
    assert (F : forall policy compiled,
               prepare policy_name (interface_arg interface)
                 (kernel (ran (clear_command (interface_arg interface)) st))
               = inr (Some (policy, compiled)) ->
               compile policy (interface_arg interface) = inr compiled).
    { intros policy compiled P'.
      now apply prepare_compiled in P' as (? & _ & _ & _ & C). }
    destruct X as [E|e NE' P'|NE' P'|policy error NE' P'|policy cmd NE' P' S'
                   |policy cmd NE' P' S'|policy commands failure st' NE' P' R
                   |policy commands st' NE' P' R];
      try contradiction; try discriminate Q.
    + rewrite P in P'.
      destruct (py_getitem (JObj d) policy_name) as [e|p];
        cbn [and_then] in P'; [discriminate|].
      destruct (compile p (interface_arg interface));
        cbn [and_then] in P'; discriminate.
    + apply F, compile_unknown_error in P' as (type & ->).
      discriminate Q.
    + apply run_each_returned in R as (stopped & events & Q' & _ & _ & L').
      injection Q' as <-. apply loop_run_stopped in L' as (_ & cmd & C & _).
      injection Q as ->. discriminate C.
  - (* the name is not listed *)
    split; [intros _; discriminate|]. intros _.
    destruct X as [E|e NE' P'|NE' P'|policy error NE' P'|policy cmd NE' P' S'
                   |policy cmd NE' P' S'|policy commands failure st' NE' P' R
                   |policy commands st' NE' P' R];
      try contradiction; try (rewrite P in P'; discriminate P').
    reflexivity.
Qed.

End CatalogFacts.

(** ** The record over the life of the process *)

Section ServerFacts.
Context `{H : Host}.

Lemma current_policy_ran cmd st :
  current_policy (ran cmd st) = current_policy st.
Proof. apply ran_fields. Qed.

Lemma process_start_record w :
  current_policy (process_start w) = initial_policy.
Proof.
  unfold process_start, bootstrap.
  rewrite !bind_run_command. unfold ret. cbn [snd].
  now rewrite !current_policy_ran.
Qed.

Lemma apply_exit_record_ok policy_name interface st out st' :
  apply_exit policy_name interface st out st' ->
  succeeded out = true ->
  record_ok (current_policy st').
Proof.
  intros X S.
  destruct X as [E|e NE P|NE P|policy error NE P|policy cmd NE P S'
                 |policy cmd NE P S'|policy commands failure st' NE P R
                 |policy commands st' NE P R];
    simpl in S; try discriminate.
  - unfold record_ok. simpl. eexists. split; [reflexivity|]. now left.
  - apply prepare_compiled in P as (policies & _ & _ & _ & C).
    apply compile_plan_kind in C as [(error & C)|(_ & kind & K & T)];
      [discriminate|].
    unfold record_ok. simpl. exists policy. split; [reflexivity|].
    right. now exists kind.
  - apply run_each_returned in R as (stopped & events & Q & _ & _ & L).
    injection Q as <-. apply loop_run_stopped in L as (F & _). congruence.
  - apply prepare_compiled in P as (policies & _ & _ & _ & C).
    apply compile_plan_kind in C as [(error & C)|(_ & kind & K & T)];
      [discriminate|].
    unfold record_ok. simpl. exists policy. split; [reflexivity|].
    right. now exists kind.
Qed.

(** What a request can do to the record. *)
Lemma handle_record (c : call) (st : state) :
  current_policy (handle c st) = current_policy st
  \/ (exists body,
         c = PostClear body
         /\ current_policy (handle c st) = initial_policy)
  \/ (exists data policy_name,
         c = PostApply (Some data)
         /\ req_policy data = Some policy_name
         /\ policy_name <> EmptyString
         /\ succeeded
              (fst (apply_policy policy_name (Some (get_interface data)) st))
            = true
         /\ handle c st
            = snd (apply_policy policy_name (Some (get_interface data)) st)).
Proof.
  destruct c as [| |body|body| |interface]; cbn [handle].
  - now left.
  - left. now rewrite list_policies_spec.
  - destruct body as [data|]; [|now left].
    destruct (req_policy data) as [[|ch rest]|] eqn:Q.
    + left. unfold apply_policy_endpoint. now rewrite Q.
    + rewrite (apply_policy_endpoint_named data (String ch rest) st Q)
        by discriminate.
      cbn [snd].
      destruct (succeeded
                  (fst (apply_policy (String ch rest)
                                     (Some (get_interface data)) st)))
        eqn:S.
      * right; right. exists data, (String ch rest).
        repeat split; trivial. discriminate.
      * left.
        exact (apply_exit_failure _ _ _ _ _
                 (apply_policy_exits (String ch rest)
                                     (Some (get_interface data)) st) S).
    + left. unfold apply_policy_endpoint. now rewrite Q.
  - right; left. exists body. split; [reflexivity|].
    unfold clear_policy_endpoint.
    now rewrite bind_clear_shaping, bind_set_current_policy.
  - left. rewrite get_current_policy_spec. apply current_policy_ran.
  - left. rewrite get_stats_spec. apply current_policy_ran.
Qed.

Lemma handle_record_ok (c : call) (st : state) :
  record_ok (current_policy st) -> record_ok (current_policy (handle c st)).
Proof.
  intros Ok.
  destruct (handle_record c st)
    as [E|[(body & _ & E)|(data & q & _ & _ & _ & S & E)]].
  - now rewrite E.
  - rewrite E. reflexivity.
  - rewrite E.
    exact (apply_exit_record_ok _ _ _ _ _
             (apply_policy_exits q (Some (get_interface data)) st) S).
Qed.

(** X11.  From the start of the process (the bootstrap commands run,
    the record initial) and through any sequence of requests, handled
    one after the other, the record is either the initial one, with
    status inactive, name "none" and no config, or an active one whose
    config is there: the kind-none dict under the name "no_shaping", or a
    descriptor whose type is cake, netem or htb. *)
Theorem record_stays_well_formed (w : world) (calls : list call) :
  record_ok (current_policy (serve calls (process_start w))).
Proof.
  assert (G : forall calls st,
             record_ok (current_policy st) ->
             record_ok (current_policy (serve calls st))).
  { clear calls. induction calls as [|c calls IH]; intros st Ok.
    - exact Ok.
    - simpl. apply IH. now apply handle_record_ok. }
  apply G. rewrite process_start_record. reflexivity.
Qed.

(** X12.  Only two requests ever change the record: a clear, which
    makes it the initial one, and an apply with a policy name for which
    [apply_policy] returns success, which makes it the record for that
    name.  The health, policies, current and stats requests, an apply
    without a name and an apply that fails or raises leave it as it
    was. *)
Theorem record_has_two_writers (c : call) (st : state) :
  current_policy (handle c st) <> current_policy st ->
  (exists body,
      c = PostClear body /\ current_policy (handle c st) = initial_policy)
  \/ (exists data policy_name descriptor,
         c = PostApply (Some data)
         /\ req_policy data = Some policy_name
         /\ succeeded
              (fst (apply_policy policy_name (Some (get_interface data)) st))
            = true
         /\ current_policy (handle c st)
            = active_record policy_name descriptor).
Proof.
  intros Changed.
  destruct (handle_record c st)
    as [E|[(body & C & E)|(data & q & C & Q & _ & S & E)]].
  - contradiction.
  - left. now exists body.
  - right.
    destruct (apply_exit_success _ _ _ _ _
                (apply_policy_exits q (Some (get_interface data)) st) S)
      as (descriptor & R & _).
    exists data, q, descriptor. rewrite E. now repeat split.
Qed.

End ServerFacts.

(** ** More runs in the laboratory *)

Lemma apply_policy_raises_before_commands_witness :
  new_events (lab_state bare_lab None initial_policy)
    (snd (@apply_policy bare_lab "slow_link" None
                        (lab_state bare_lab None initial_policy)))
  = [Ran "tc qdisc del dev eth1 root 2>/dev/null || true"
         (result_dict (exit_ok EmptyString));
     OpenedPolicies].
Proof.
  exact (proj1 (proj2
           (@apply_policy_raises_before_commands bare_lab "slow_link" None
              (lab_state bare_lab None initial_policy)
              (OSError "No such file or directory: '/app/policies.json'")
              eq_refl))).
Defined.



Lemma apply_handler_status_witness :
  fst (@apply_policy_endpoint lab
         (Some {| req_policy := Some "slow_link"; req_interface := None |})
         (lab_state lab None initial_policy))
  = inr (applied "slow_link" None (Some netem_line) None, 200)
  /\ fst (@apply_policy_endpoint lab
            (Some {| req_policy := Some "missing_policy";
                     req_interface := None |})
            (lab_state lab None initial_policy))
     = inr (not_found "missing_policy", 400).
Proof.
  split.
  - destruct (@apply_handler_status lab
                {| req_policy := Some "slow_link"; req_interface := None |}
                (lab_state lab None initial_policy)) as (_ & _ & A & _).
    destruct (A "slow_link" eq_refl) as (_ & _ & R); [discriminate|].
    exact (R (applied "slow_link" None (Some netem_line) None) eq_refl).
  - destruct (@apply_handler_status lab
                {| req_policy := Some "missing_policy";
                   req_interface := None |}
                (lab_state lab None initial_policy)) as (_ & _ & A & _).
    destruct (A "missing_policy" eq_refl) as (_ & _ & R); [discriminate|].
    exact (R (not_found "missing_policy") eq_refl).
Defined.

Lemma listed_policies_are_found_witness :
  fst (@apply_policy lab "missing_policy" None
                     (lab_state lab None initial_policy))
  = inr (not_found "missing_policy")
  /\ fst (@apply_policy lab "off" None (lab_state lab None initial_policy))
     <> inr (not_found "off").
Proof.
  split.
  - apply (@listed_policies_are_found lab "missing_policy" None
             (lab_state lab None initial_policy)
             {| reply_policies :=
                  ["no_shaping"; "slow_link"; "home"; "tiers"; "off"];
                reply_details := lab_catalog |}
             eq_refl eq_refl).
    + discriminate.
    + simpl. intros [E|[E|[E|[E|[E|[]]]]]]; discriminate.
  - intros Q.
    apply (@listed_policies_are_found lab "off" None
             (lab_state lab None initial_policy)
             {| reply_policies :=
                  ["no_shaping"; "slow_link"; "home"; "tiers"; "off"];
                reply_details := lab_catalog |}
             eq_refl eq_refl) in Q.
    + apply Q. simpl. tauto.
    + discriminate.
Defined.

Lemma record_has_two_writers_witness :
  current_policy (@handle lab (PostClear None) (slow_link_active never))
  = initial_policy.
Proof.
  destruct (@record_has_two_writers lab (PostClear None)
              (slow_link_active never))
    as [(body & _ & E)|(data & q & d & C & _)].
  - discriminate.
  - exact E.
  - discriminate C.
Defined.

Example record_after_requests :
  current_policy
    (@serve lab
       [GetHealth;
        PostApply (Some {| req_policy := Some "tiers";
                           req_interface := Some "eth0" |});
        GetStats None;
        PostApply (Some {| req_policy := Some "missing_policy";
                           req_interface := None |});
        GetCurrent]
       (@process_start lab None))
  = active_record "tiers" (JObj tiers_descriptor).
Proof. reflexivity. Qed.

(** * The test runner *)

Section ParseFacts.
Context `{B : TestRunner.Bench}.
Import TestRunner.

Lemma lookup_dict container key value :
  lookup container key = inr value ->
  exists d, container = JObj d /\ dict_get key d = Some value.
Proof.
  unfold lookup, py_getitem.
  destruct container as [t|s|l|d]; try discriminate.
  destruct (dict_get key d) as [v|] eqn:G; [|discriminate].
  intros [= <-]. now exists d.
Qed.

Lemma lookup_key_error container key missing :
  lookup container key = inl (Python (KeyError missing)) ->
  missing = key /\ exists d, container = JObj d /\ dict_get key d = None.
Proof.
  unfold lookup, py_getitem.
  destruct container as [t|s|l|d]; try discriminate.
  destruct (dict_get key d) as [v|] eqn:G; [discriminate|].
  intros [= <-]. split; trivial. now exists d.
Qed.

Lemma div_million_no_key_error value key :
  div_million value <> inl (Python (KeyError key)).
Proof.
  unfold div_million. destruct value as [t|s|l|d]; try discriminate.
  destruct (scalar_div_million t) as [[|]|q]; discriminate.
Qed.

Lemma format_2f_no_key_error value key :
  format_2f value <> inl (Python (KeyError key)).
Proof.
  unfold format_2f. destruct value as [t|s|l|d]; try discriminate.
  destruct (scalar_format_2f t) as [[|]|q]; discriminate.
Qed.

Lemma lookup_or_zero_dict (d : dict) key :
  lookup_or_zero (JObj d) key = inr (get_or_zero key d).
Proof.
  unfold lookup_or_zero, get_or_zero, py_get.
  now destruct (dict_get key d).
Qed.

(** What [build_result] needs to give a result, and what the result
    holds. *)
Lemma build_result_complete now seconds data test r :
  build_result now seconds data test = inr r ->
  test_name r = test /\ timestamp r = now /\ duration r = seconds
  /\ exists sent received bits,
      report_parts data = Some (sent, received)
      /\ dict_get "bits_per_second" received = Some bits
      /\ div_million bits = inr (bandwidth_mbps r)
      /\ dict_get "bytes" sent = Some (bytes_transferred r)
      /\ retransmits r = get_or_zero "retransmits" sent
      /\ jitter_ms r = get_or_zero "jitter_ms" received
      /\ lost_packets r = get_or_zero "lost_packets" received
      /\ lost_percent r = get_or_zero "lost_percent" received.
Proof.
  unfold build_result. intros E.
  destruct (lookup data "end") as [e|end_data] eqn:L1;
    cbn [and_also] in E; [discriminate|].
  destruct (lookup end_data "sum_sent") as [e|sum_sent] eqn:L2;
    cbn [and_also] in E; [discriminate|].
  destruct (lookup end_data "sum_received") as [e|sum_received] eqn:L3;
    cbn [and_also] in E; [discriminate|].
  destruct (lookup sum_received "bits_per_second") as [e|bits] eqn:L4;
    cbn [and_also] in E; [discriminate|].
  destruct (div_million bits) as [e|bandwidth] eqn:D;
    cbn [and_also] in E; [discriminate|].
  destruct (lookup sum_sent "bytes") as [e|bytes] eqn:L5;
    cbn [and_also] in E; [discriminate|].
  apply lookup_dict in L1 as (d & -> & G1).
  apply lookup_dict in L2 as (e & -> & G2).
  apply lookup_dict in L3 as (e' & [= <-] & G3).
  apply lookup_dict in L4 as (received & -> & G4).
  apply lookup_dict in L5 as (sent & -> & G5).
  rewrite !lookup_or_zero_dict in E. cbn [and_also] in E.
  destruct (format_2f bandwidth); cbn [and_also] in E; [discriminate|].
  destruct (format_2f (get_or_zero "lost_percent" received));
    cbn [and_also] in E; [discriminate|].
  injection E as <-. cbn.
  repeat split.
  exists sent, received, bits.
  unfold report_parts. rewrite G1, G2, G3. now repeat split.
Qed.

(** A KeyError in [build_result] is a mandatory key missing from one of
    the dicts of the report. *)
Lemma build_result_key_error now seconds data test missing :
  build_result now seconds data test = inl (Python (KeyError missing)) ->
  In missing mandatory_keys
  /\ exists d, In d (report_dicts data) /\ dict_get missing d = None.
Proof.
  unfold build_result. intros E.
  destruct (lookup data "end") as [e|end_data] eqn:L1; cbn [and_also] in E.
  { injection E as ->. apply lookup_key_error in L1 as (-> & d & -> & G).
    split; [simpl; tauto|]. exists d. split; [now left | exact G]. }
  apply lookup_dict in L1 as (d & -> & G1).
  destruct (lookup end_data "sum_sent") as [e|sum_sent] eqn:L2;
    cbn [and_also] in E.
  { injection E as ->. apply lookup_key_error in L2 as (-> & e & -> & G).
    split; [simpl; tauto|]. exists e. split; [|exact G].
    simpl. rewrite G1. right. now left. }
  apply lookup_dict in L2 as (e & -> & G2).
  destruct (lookup (JObj e) "sum_received") as [x|sum_received] eqn:L3;
    cbn [and_also] in E.
  { injection E as ->. apply lookup_key_error in L3 as (-> & e' & [= <-] & G).
    split; [simpl; tauto|]. exists e. split; [|exact G].
    simpl. rewrite G1. right. now left. }
  apply lookup_dict in L3 as (e' & [= <-] & G3).
  destruct (lookup sum_received "bits_per_second") as [x|bits] eqn:L4;
    cbn [and_also] in E.
  { injection E as ->.
    apply lookup_key_error in L4 as (-> & received & -> & G).
    split; [simpl; tauto|]. exists received. split; [|exact G].
    simpl. rewrite G1, G2, G3. right. right.
    apply in_or_app. right. now left. }
  apply lookup_dict in L4 as (received & -> & G4).
  destruct (div_million bits) as [x|bandwidth] eqn:D; cbn [and_also] in E.
  { injection E as ->. now apply div_million_no_key_error in D. }
  destruct (lookup sum_sent "bytes") as [x|bytes] eqn:L5; cbn [and_also] in E.
  { injection E as ->. apply lookup_key_error in L5 as (-> & sent & -> & G).
    split; [simpl; tauto|]. exists sent. split; [|exact G].
    simpl. rewrite G1, G2, G3. right. right.
    apply in_or_app. left. now left. }
  apply lookup_dict in L5 as (sent & -> & G5).
  rewrite !lookup_or_zero_dict in E. cbn [and_also] in E.
  destruct (format_2f bandwidth) eqn:F1; cbn [and_also] in E.
  { injection E as ->. now apply format_2f_no_key_error in F1. }
  destruct (format_2f (get_or_zero "lost_percent" received)) eqn:F2;
    cbn [and_also] in E.
  { injection E as ->. now apply format_2f_no_key_error in F2. }
  discriminate.
Qed.

(** X13.  [parse_iperf_results] touches neither the results nor the
    outside and never lets a KeyError escape.  A result it returns has
    the test name given, the configured duration and the time read from
    the clock; it is read from a report whose end, sum_sent and
    sum_received are dicts holding bits_per_second and bytes, and the
    counters retransmits, jitter_ms, lost_packets and lost_percent are
    those of the report, 0 for each one that is absent.  It returns None
    only when one of the keys end, sum_sent, sum_received,
    bits_per_second, bytes is missing from a dict of the report. *)
Theorem parse_iperf_results_reads_report (data test : json) (t : tester) :
  snd (parse_iperf_results data test t) = t
  /\ (forall key,
         fst (parse_iperf_results data test t)
         <> inl (Python (KeyError key)))
  /\ (forall r,
         fst (parse_iperf_results data test t) = inr (Some r) ->
         test_name r = test
         /\ timestamp r = now_isoformat (bench t)
         /\ duration r = iperf_duration t
         /\ exists sent received bits,
             report_parts data = Some (sent, received)
             /\ dict_get "bits_per_second" received = Some bits
             /\ div_million bits = inr (bandwidth_mbps r)
             /\ dict_get "bytes" sent = Some (bytes_transferred r)
             /\ retransmits r = get_or_zero "retransmits" sent
             /\ jitter_ms r = get_or_zero "jitter_ms" received
             /\ lost_packets r = get_or_zero "lost_packets" received
             /\ lost_percent r = get_or_zero "lost_percent" received)
  /\ (fst (parse_iperf_results data test t) = inr None ->
      exists key d,
        In key mandatory_keys
        /\ In d (report_dicts data)
        /\ dict_get key d = None).
Proof.
  unfold parse_iperf_results.
  destruct (build_result (now_isoformat (bench t)) (iperf_duration t)
                         data test) as [e|result] eqn:E.
  - destruct e as [[key| | | | ]| | | | |]; cbn [fst snd];
      (split; [reflexivity|]); (split; [discriminate|]);
      (split; [discriminate|]); try discriminate.
    intros _. apply build_result_key_error in E as (K & d & Hd & G).
    now exists key, d.
  - cbn [fst snd]. split; [reflexivity|]. split; [discriminate|].
    split; [|discriminate].
    intros r [= <-]. exact (build_result_complete _ _ _ _ _ E).
Qed.

End ParseFacts.

Lemma subsequence_nil_l {A} (l : list A) : subsequence [] l.
Proof. induction l; now constructor. Qed.

Lemma subsequence_length {A} (l l' : list A) :
  subsequence l l' -> length l <= length l'.
Proof. induction 1; simpl; lia. Qed.

Section SuiteFacts.
Context `{B : TestRunner.Bench}.
Import TestRunner.

(** A post makes one contact and leaves the attributes and the results
    of the runner alone. *)
Lemma http_post_step url body t :
  exists o,
    (exists response,
        http_post url body t
        = (inr response, moved o (Posted url body (status_code response)) t))
    \/ (exists e,
           http_post url body t = (inl e, moved o (PostFailed url body) t)).
Proof.
  unfold http_post.
  destruct (requests_post url body (bench t)) as [[e|response] o];
    exists o; [right; now exists e | left; now exists response].
Qed.

Lemma apply_policy_step policy t :
  exists o,
    (exists status,
        apply_policy policy t
        = (inr (Nat.eqb status 200),
           moved o (Posted (shaper_api t ++ "/policy/apply")
                           (Some (JObj [("policy", policy)])) status) t))
    \/ (exists e,
           apply_policy policy t
           = (inl e,
              moved o (PostFailed (shaper_api t ++ "/policy/apply")
                                  (Some (JObj [("policy", policy)]))) t)).
Proof.
  unfold apply_policy, bind.
  destruct (http_post_step (shaper_api t ++ "/policy/apply")
              (Some (JObj [("policy", policy)])) t)
    as (o & [(response & ->)|(e & ->)]); exists o.
  - left. now exists (status_code response).
  - right. now exists e.
Qed.

Lemma clear_policy_step t :
  exists o,
    (exists status,
        clear_policy t
        = (inr tt,
           moved o (Posted (shaper_api t ++ "/policy/clear") None status) t))
    \/ (exists e,
           clear_policy t
           = (inl e,
              moved o (PostFailed (shaper_api t ++ "/policy/clear") None) t)).
Proof.
  unfold clear_policy, bind.
  destruct (http_post_step (shaper_api t ++ "/policy/clear") None t)
    as (o & [(response & ->)|(e & ->)]); exists o.
  - left. now exists (status_code response).
  - right. now exists e.
Qed.

(** A measurement makes one contact; a result it returns is named after
    the test. *)
Lemma run_iperf_test_step test t :
  exists o out,
    run_iperf_test test t
    = (out,
       moved o (Measured (iperf_command (iperf_duration t))
                         (iperf_duration t + 10)) t)
    /\ (forall r, out = inr (Some r) -> test_name r = test).
Proof.
  unfold run_iperf_test.
  destruct (subprocess_run_list (iperf_command (iperf_duration t))
              (iperf_duration t + 10) (bench t)) as [[e|result] o].
  - exists o. destruct (caught e); eexists; (split; [reflexivity|]);
      discriminate.
  - exists o. destruct (Z.eqb (returncode result) 0);
      [|eexists; split; [reflexivity | discriminate]].
    destruct (json_loads (stdout result)) as [data|];
      [|eexists; split; [reflexivity | discriminate]].
    set (t' := moved o _ t).
    unfold parse_iperf_results.
    destruct (build_result (now_isoformat (bench t')) (iperf_duration t')
                           data test) as [e|r] eqn:E.
    + destruct e as [[key| | | | ]| | | | |]; cbn [caught];
        eexists; (split; [reflexivity|]); discriminate.
    + eexists. split; [reflexivity|]. intros r' [= <-].
      now destruct (build_result_complete _ _ _ _ _ E).
Qed.

End SuiteFacts.

Section SuiteClaims.
Context `{B : TestRunner.Bench}.
Import TestRunner.

Lemma bind_gave {A C} (c : T A) (k : A -> T C) t a t' :
  c t = (inr a, t') -> bind c k t = k a t'.
Proof. intros E. unfold bind. now rewrite E. Qed.

Lemma bind_failed {A C} (c : T A) (k : A -> T C) t e t' :
  c t = (inl e, t') -> bind c k t = (inl e, t').
Proof. intros E. unfold bind. now rewrite E. Qed.

(** The loop policy by policy: what it adds to the results and to the
    contacts, whether it completes or an exception stops it. *)
Lemma test_each_spec (policies : list json) :
  forall t out t',
    test_each policies t = (out, t') ->
    exists added seen,
      shaper_api t' = shaper_api t
      /\ iperf_duration t' = iperf_duration t
      /\ results t' = (results t ++ added)%list
      /\ contacts t' = (contacts t ++ seen)%list
      /\ subsequence (map test_name added) policies
      /\ (out = inr tt ->
          rounds (shaper_api t) (iperf_duration t) policies seen).
Proof.
  induction policies as [|policy rest IH]; intros t out t' E.
  - injection E as <- <-. exists [], []. rewrite !app_nil_r.
    repeat split; constructor.
  - cbn [test_each] in E.
    destruct (apply_policy_step policy t)
      as (o1 & [(status & E1)|(e & E1)]).
    2:{ rewrite (bind_failed _ _ _ _ _ E1) in E. injection E as <- <-.
        exists [], [PostFailed (shaper_api t ++ "/policy/apply")
                               (Some (JObj [("policy", policy)]))].
        cbn. rewrite app_nil_r.
        repeat split; try discriminate. apply subsequence_nil_l. }
    rewrite (bind_gave _ _ _ _ _ E1) in E. clear E1.
    set (t1 := moved o1 _ t) in E.
    destruct (Nat.eqb_spec status 200) as [->|Ns]; cbn [negb] in E.
    2:{ destruct (IH t1 out t' E) as (added & seen & A & D & R & C & S & K).
        exists added, (Posted (shaper_api t ++ "/policy/apply")
                              (Some (JObj [("policy", policy)])) status
                       :: seen).
        rewrite A, D, R, C. subst t1. cbn. rewrite <- app_assoc.
        repeat split; trivial.
        - now apply subsequence_skip.
        - intros Ok. apply rounds_skipped; [exact Ns|]. now apply K. }
    destruct (run_iperf_test_step policy t1) as (o2 & got & E2 & Hn).
    set (t2 := moved o2 _ t1) in E2.
    destruct got as [e|result].
    { rewrite (bind_failed _ _ _ _ _ E2) in E. injection E as <- <-.
      exists [], [Posted (shaper_api t ++ "/policy/apply")
                         (Some (JObj [("policy", policy)])) 200;
                  Measured (iperf_command (iperf_duration t))
                           (iperf_duration t + 10)].
      subst t2 t1. cbn. rewrite app_nil_r, <- app_assoc.
      repeat split; try discriminate. apply subsequence_nil_l. }
    rewrite (bind_gave _ _ _ _ _ E2) in E. clear E2.
    set (kept := match result with Some r => [r] | None => [] end).
    assert (N3 : forall names,
               subsequence names rest ->
               subsequence (map test_name kept ++ names) (policy :: rest)).
    { intros names Sn. subst kept. destruct result as [r|]; cbn.
      - rewrite (Hn r eq_refl). now apply subsequence_keep.
      - now apply subsequence_skip. }
    assert (E3 : exists t3,
               (match result with
                | Some r => append_result r
                | None => ret tt
                end) t2 = (inr tt, t3)
               /\ shaper_api t3 = shaper_api t
               /\ iperf_duration t3 = iperf_duration t
               /\ results t3 = (results t ++ kept)%list
               /\ contacts t3
                  = (contacts t
                     ++ [Posted (shaper_api t ++ "/policy/apply")
                                (Some (JObj [("policy", policy)])) 200;
                         Measured (iperf_command (iperf_duration t))
                                  (iperf_duration t + 10)])%list).
    { subst kept t2 t1. destruct result; eexists; (split; [reflexivity|]);
        cbn; rewrite <- ?app_assoc; rewrite ?app_nil_r; repeat split. }
    destruct E3 as (t3 & E3 & A3 & D3 & R3 & C3).
    rewrite (bind_gave _ _ _ _ _ E3) in E. clear E3.
    destruct (clear_policy_step t3) as (o4 & [(status & E4)|(e & E4)]).
    2:{ rewrite (bind_failed _ _ _ _ _ E4) in E. injection E as <- <-.
        exists kept,
          [Posted (shaper_api t ++ "/policy/apply")
                  (Some (JObj [("policy", policy)])) 200;
           Measured (iperf_command (iperf_duration t))
                    (iperf_duration t + 10);
           PostFailed (shaper_api t ++ "/policy/clear") None].
        cbn. rewrite A3, D3, R3, C3, <- app_assoc.
        repeat split; try discriminate.
        rewrite <- (app_nil_r (map test_name kept)).
        apply N3, subsequence_nil_l. }
    rewrite (bind_gave _ _ _ _ _ E4) in E. clear E4.
    set (t4 := moved o4 _ t3) in E.
    destruct (IH t4 out t' E) as (added & seen & A & D & R & C & S & K).
    exists (kept ++ added)%list,
      (Posted (shaper_api t ++ "/policy/apply")
              (Some (JObj [("policy", policy)])) 200
       :: Measured (iperf_command (iperf_duration t))
                   (iperf_duration t + 10)
       :: Posted (shaper_api t ++ "/policy/clear") None status
       :: seen).
    rewrite A, D, R, C. subst t4. cbn. rewrite A3, D3, R3, C3.
    rewrite <- !app_assoc. cbn.
    repeat split; trivial.
    + rewrite map_app. now apply N3.
    + intros Ok. apply rounds_tested. apply K in Ok.
      cbn [moved shaper_api iperf_duration] in Ok.
      now rewrite A3, D3 in Ok.
Qed.

End SuiteClaims.

Section SuiteTheorems.
Context `{B : TestRunner.Bench}.
Import TestRunner.

Lemma get_policies_step t :
  exists o,
    snd (get_policies t) = moved o (Got (shaper_api t ++ "/policies")) t.
Proof.
  unfold get_policies, bind, http_get.
  destruct (requests_get (shaper_api t ++ "/policies") (bench t))
    as [[e|response] o]; exists o; [reflexivity|].
  destruct (Nat.eqb (status_code response) 200); reflexivity.
Qed.

(** What a call of [run_test_suite] adds to the results and contacts. *)
Lemma run_test_suite_spec policies t :
  exists added seen,
    results (snd (run_test_suite policies t)) = (results t ++ added)%list
    /\ contacts (snd (run_test_suite policies t))
       = (contacts t
          ++ match policies with
             | None => [Got (shaper_api t ++ "/policies")]
             | Some _ => []
             end
          ++ seen)%list
    /\ match tested_policies policies t with
       | Some items =>
           subsequence (map test_name added) items
           /\ (fst (run_test_suite policies t) = inr tt ->
               rounds (shaper_api t) (iperf_duration t) items seen)
       | None =>
           added = [] /\ seen = []
           /\ fst (run_test_suite policies t) <> inr tt
       end.
Proof.
  unfold run_test_suite, tested_policies.
  destruct policies as [given|].
  - rewrite (bind_gave _ _ t given t eq_refl).
    destruct (py_iter given) as [e|items].
    + exists [], []. cbn. rewrite !app_nil_r. repeat split. discriminate.
    + destruct (test_each items t) as [out t'] eqn:E.
      destruct (test_each_spec items t out t' E)
        as (added & seen & _ & _ & R & C & S & K).
      exists added, seen. cbn. now repeat split.
  - destruct (get_policies_step t) as (o & G).
    destruct (get_policies t) as [[e|listed] t1] eqn:E1; cbn [fst snd] in *.
    + rewrite (bind_failed _ _ _ _ _ E1). exists [], []. subst t1. cbn.
      rewrite !app_nil_r. repeat split. discriminate.
    + rewrite (bind_gave _ _ _ _ _ E1).
      destruct (py_iter listed) as [e|items].
      * exists [], []. subst t1. cbn. rewrite !app_nil_r.
        repeat split. discriminate.
      * destruct (test_each items t1) as [out t'] eqn:E.
        destruct (test_each_spec items t1 out t' E)
          as (added & seen & _ & _ & R & C & S & K).
        exists added, seen. cbn [fst snd]. rewrite R, C. subst t1. cbn.
        rewrite <- app_assoc. now repeat split.
Qed.

(** X14.  A call of [run_test_suite] only appends to the results, and
    what it appends, whether it completes or an exception stops it, are
    results named after policies it went over, in the order of those
    policies and at most one for each: the test names added are the
    policies with some left out. *)
Theorem suite_results_follow_policies (policies : option json)
  (t : tester) :
  exists added,
    results (snd (run_test_suite policies t)) = (results t ++ added)%list
    /\ subsequence (map test_name added)
                   match tested_policies policies t with
                   | Some items => items
                   | None => []
                   end
    /\ length added
       <= length match tested_policies policies t with
                 | Some items => items
                 | None => []
                 end.
Proof.
  destruct (run_test_suite_spec policies t) as (added & seen & R & _ & P).
  exists added. split; [exact R|].
  assert (S : subsequence (map test_name added)
                match tested_policies policies t with
                | Some items => items
                | None => []
                end).
  { destruct (tested_policies policies t).
    - apply P.
    - destruct P as (-> & _). constructor. }
  split; [exact S|].
  apply subsequence_length in S. now rewrite length_map in S.
Qed.


End SuiteTheorems.


Example suite_contacts_on_sample_bench :
  TestRunner.contacts
    (snd (@TestRunner.run_test_suite TestRunner.sample_bench None
            (TestRunner.sample_tester "report")))
  = [ TestRunner.Got "http://localhost:5000/policies";
      TestRunner.Posted "http://localhost:5000/policy/apply"
                        (Some (JObj [("policy", JStr "nope")])) 400;
      TestRunner.Posted "http://localhost:5000/policy/apply"
                        (Some (JObj [("policy", JStr "slow_link")])) 200;
      TestRunner.Measured (TestRunner.iperf_command 30) 40;
      TestRunner.Posted "http://localhost:5000/policy/clear" None 200 ].
Proof. reflexivity. Qed.

Example suite_on_sample_bench :
  map TestRunner.test_name
      (TestRunner.results
         (snd (@TestRunner.run_test_suite TestRunner.sample_bench None
                 (TestRunner.sample_tester "report"))))
  = [JStr "slow_link"]
  /\ TestRunner.results
       (snd (@TestRunner.run_test_suite TestRunner.sample_bench None
               (TestRunner.sample_tester "garbage")))
     = [].
Proof. split; reflexivity. Qed.
